(** * ac-mediator: field and filter translation of [services/acservice/search.py]

    A shallow embedding of the two search mixins, [BaseACServiceSearchMixin]
    and [ACServiceTextSearchMixin], together with the properties their
    specification states about them.

    Conventions of the embedding.
    - Python values that travel through the mixins are the type [pyval].
    - A call that can raise returns [outcome A]: [OK a] for a normal return,
      [Raise e] for an exception [e].  Exceptions are the instances of
      Python's [Exception]; an [exn] value records the name of its class,
      the names of the classes it inherits from, and the text [str(e)].
    - [self] is the record [service].  Its fields are the attributes and the
      methods an adapter overrides; the [default_] definitions are the
      bodies the text-search mixin gives to three of them.
    - The only state the mixins touch besides their arguments is the list of
      response warnings, threaded explicitly. *)

From Stdlib Require Import ZArith PrimFloat Ascii.
From stdpp Require Import base option list gmap strings pretty.

(** ** Values *)

(** [VParse] is a [pyparsing.ParseResults], the node type of a parsed
    filter; [VTuple] is a tuple.  Characters of a [VStr] are the characters
    of the Python string. *)
#[local] Set Warnings "-register-all".
Inductive pyval : Type :=
  | VNone
  | VInt (n : Z)
  | VFloat (x : float)
  | VStr (s : string)
  | VTuple (items : list pyval)
  | VParse (items : list pyval).

(** ** Exceptions and results *)

Record exn : Type := Exn {
  exn_name : string;          (* e.__class__.__name__ *)
  exn_bases : list string;    (* names of the proper ancestors below Exception *)
  exn_str : string            (* str(e) *)
}.

(** [isinstance(e, cls)], as decided by an [except cls] clause. *)
Definition isinstance (e : exn) (cls : string) : bool :=
  String.eqb (exn_name e) cls || existsb (String.eqb cls) (exn_bases e).

Inductive outcome (A : Type) : Type :=
  | OK (a : A)
  | Raise (e : exn).
Arguments OK {A} a.
Arguments Raise {A} e.

(** Sequencing: an exception of the first call skips the rest.  With these
    instances [x ← m; k] is stdpp's bind notation on [outcome]. *)
#[global] Instance outcome_ret : MRet outcome := λ A a, OK a.
#[global] Instance outcome_bind : MBind outcome := λ A B k m,
  match m with
  | OK a => k a
  | Raise e => Raise e
  end.

Definition is_OK {A} (m : outcome A) : bool :=
  match m with OK _ => true | Raise _ => false end.

(** Built-in exceptions raised by the interpreter on the operations below. *)
Definition TypeError (msg : string) : exn := Exn "TypeError" [] msg.
Definition IndexError (msg : string) : exn := Exn "IndexError" ["LookupError"] msg.
Definition AttributeError (msg : string) : exn := Exn "AttributeError" [] msg.
Definition NotImplementedError (msg : string) : exn :=
  Exn "NotImplementedError" ["RuntimeError"] msg.

Definition KeyError (msg : string) : exn := Exn "KeyError" ["LookupError"] msg.

(** The exceptions of [ac_mediator.exceptions] the mixins raise.  Their
    classes are declared outside [search.py]; here [ACException] is their
    base and [str] of one is the message it was built with.  No statement
    below depends on either choice. *)
Definition ACFieldTranslateException (msg : string) : exn :=
  Exn "ACFieldTranslateException" ["ACException"] msg.
Definition ACFilterParsingException (msg : string) : exn :=
  Exn "ACFilterParsingException" ["ACException"] msg.

(** ** Built-in operations on values *)

Definition type_name (v : pyval) : string :=
  match v with
  | VNone => "NoneType"
  | VInt _ => "int"
  | VFloat _ => "float"
  | VStr _ => "str"
  | VTuple _ => "tuple"
  | VParse _ => "ParseResults"
  end.

(** [len(v)] *)
Definition py_len (v : pyval) : outcome nat :=
  match v with
  | VStr s => OK (String.length s)
  | VTuple l | VParse l => OK (length l)
  | _ => Raise (TypeError ("object of type '" +:+ type_name v +:+ "' has no len()"))
  end.

(** [v[i]] for an index [i >= 0] *)
Definition py_getitem (v : pyval) (i : nat) : outcome pyval :=
  match v with
  | VStr s =>
      match String.get i s with
      | Some c => OK (VStr (String c EmptyString))
      | None => Raise (IndexError "string index out of range")
      end
  | VTuple l =>
      match l !! i with
      | Some x => OK x
      | None => Raise (IndexError "tuple index out of range")
      end
  | VParse l =>
      match l !! i with
      | Some x => OK x
      | None => Raise (IndexError "list index out of range")
      end
  | _ => Raise (TypeError ("'" +:+ type_name v +:+ "' object is not subscriptable"))
  end.

(** [v == s] for a string literal [s] *)
Definition py_eq_str (v : pyval) (s : string) : bool :=
  match v with
  | VStr t => String.eqb t s
  | _ => false
  end.

(** [str.upper] on the letters a-z; the other characters are kept.  The
    mixin only compares the result with "AND", "OR" and "NOT", which no
    other character maps into. *)
Definition upper_ascii (c : ascii) : ascii :=
  let n := Ascii.nat_of_ascii c in
  if (97 <=? n) && (n <=? 122) then Ascii.ascii_of_nat (n - 32) else c.

Fixpoint upper (s : string) : string :=
  match s with
  | EmptyString => EmptyString
  | String c r => String (upper_ascii c) (upper r)
  end.

(** [v.upper()] *)
Definition py_upper (v : pyval) : outcome string :=
  match v with
  | VStr s => OK (upper s)
  | _ => Raise (AttributeError ("'" +:+ type_name v +:+ "' object has no attribute 'upper'"))
  end.

(** [''.join(l)]; [join_from i l] joins the items from position [i] on. *)
Fixpoint join_from (i : nat) (l : list pyval) : outcome string :=
  match l with
  | [] => OK EmptyString
  | VStr s :: r => t ← join_from (S i) r; OK (s +:+ t)
  | v :: _ =>
      Raise (TypeError ("sequence item " +:+ pretty i +:+ ": expected str instance, "
                          +:+ type_name v +:+ " found"))
  end.

Definition join (l : list pyval) : outcome string := join_from 0 l.

(** [l[0]] and [l[1:-1]] on a list *)
Definition list_getitem (l : list pyval) (i : nat) : outcome pyval :=
  match l !! i with
  | Some x => OK x
  | None => Raise (IndexError "list index out of range")
  end.

Definition slice_1_m1 {A} (l : list A) : list A := removelast (tail l).

(** ** What the module imports *)

(** Names [search.py] uses and does not define: the built-ins [str] and
    [repr], [parse_filter] of [services.acservice.utils], and the constants
    of [services.acservice.constants]. *)
Class environment : Type := {
  py_str : pyval → string;
  py_repr : pyval → string;
  parse_filter : string → outcome pyval;
  SORT_OPTIONS : list string;
  QUERY_PARAM_SORT : string
}.

(** A value of a search parameter: [None], a number, or a list of names. *)
Inductive param : Type :=
  | PNone
  | PInt (n : Z)
  | PList (names : list string).

(** The dictionary [format_search_response] returns, with the value under
    [NUM_RESULTS_PROP] and the value under [RESULTS_LIST]. *)
Record search_response : Type := {
  num_results : Z;
  results_list : list (gmap string pyval)
}.

Section Mixins.
Context `{env : environment} {response : Type}.

(** ['{0}'.format(v)]: a string formats as itself. *)
Definition format0 (v : pyval) : string :=
  match v with
  | VStr s => s
  | _ => py_str v
  end.

(** [d[k]] on a dictionary with string keys *)
Definition dict_getitem {A} (d : gmap string A) (k : string) : outcome A :=
  match d !! k with
  | Some v => OK v
  | None => Raise (KeyError (py_repr (VStr k)))
  end.

(** [k in d] and [d[k]] for a key that is any value: only a string can be
    equal to a key of [d]. *)
Definition dict_contains {A} (d : gmap string A) (k : pyval) : bool :=
  match k with
  | VStr s => bool_decide (is_Some (d !! s))
  | _ => false
  end.

Definition dict_getitem_val {A} (d : gmap string A) (k : pyval) : outcome A :=
  match k with
  | VStr s => dict_getitem d s
  | _ => Raise (KeyError (py_repr k))
  end.

(** ** The adapter object [self] *)

Record service : Type := {
  (* BaseACServiceSearchMixin *)
  direct_fields_mapping : gmap string string;
  translate_field_methods_registry :
    option (gmap string (gmap string pyval → outcome pyval));
  get_results_list_from_response : response → outcome (list (gmap string pyval));
  get_num_results_from_response : response → outcome Z;
  (* ACServiceTextSearchMixin *)
  direct_filters_mapping : gmap string string;
  translate_filter_methods_registry :
    option (gmap string (pyval → outcome (string * pyval)));
  render_filter_term : string → pyval → pyval → pyval → outcome pyval;
  render_operator_term : string → outcome pyval;
  process_s_query_parameter : string → bool → bool → outcome (gmap string pyval)
}.

(** ** BaseACServiceSearchMixin *)

Definition translate_field (self : service) (ac_field_name : string)
    (result : gmap string pyval) : outcome pyval :=
  (* the [try] block: [Some v] when it returns [v], [None] when it falls through *)
  let attempt : outcome (option pyval) :=
    match direct_fields_mapping self !! ac_field_name with
    | Some key => v ← dict_getitem result key; OK (Some v)
    | None =>
        match translate_field_methods_registry self with
        | None => Raise (TypeError "argument of type 'NoneType' is not iterable")
        | Some registry =>
            match registry !! ac_field_name with
            | Some method => v ← method result; OK (Some v)
            | None => OK None
            end
        end
    end in
  match attempt with
  | OK (Some v) => OK v
  | Raise e =>
      Raise (ACFieldTranslateException
        ("Can't translate field '" +:+ ac_field_name +:+ "' ("
           +:+ exn_name e +:+ ": " +:+ exn_str e +:+ ")"))
  | OK None =>
      Raise (ACFieldTranslateException
        ("Can't translate field '" +:+ ac_field_name +:+ "' (unexpected field)"))
  end.

(** Modelled from the spec: [add_response_warning] of the service base class,
    which accumulates a diagnostic string for the final envelope. *)
Definition add_response_warning (warnings : list string) (msg : string) : list string :=
  warnings ++ [msg].

(** The loop of [translate_single_result] over the target fields. *)
Fixpoint translate_fields (self : service) (result : gmap string pyval)
    (target_fields : list string) (translated_result : gmap string pyval)
    (warnings : list string) : outcome (gmap string pyval) * list string :=
  match target_fields with
  | [] => (OK translated_result, warnings)
  | ac_field_name :: rest =>
      match translate_field self ac_field_name result with
      | OK trans_field_value =>
          translate_fields self result rest
            (<[ac_field_name := trans_field_value]> translated_result) warnings
      | Raise e =>
          if isinstance e "ACFieldTranslateException" then
            translate_fields self result rest translated_result
              (add_response_warning warnings
                 ("Can't return unsupported field " +:+ ac_field_name))
          else (Raise e, warnings)
      end
  end.

Definition translate_single_result (self : service) (result : gmap string pyval)
    (target_fields : param) (format : pyval) (warnings : list string)
    : outcome (gmap string pyval) * list string :=
  let target_fields := match target_fields with PNone => PList [] | p => p end in
  match target_fields with
  | PList names => translate_fields self result names ∅ warnings
  | _ => (Raise (TypeError "'int' object is not iterable"), warnings)
  end.

(** [common_search_params.get('fields', None)] *)
Definition get_fields (common_search_params : gmap string param) : param :=
  default PNone (common_search_params !! "fields").

(** The loop of [format_search_response] over the raw results. *)
Fixpoint translate_results (self : service) (raw : list (gmap string pyval))
    (target_fields : param) (format : pyval) (results : list (gmap string pyval))
    (warnings : list string) : outcome (list (gmap string pyval)) * list string :=
  match raw with
  | [] => (OK results, warnings)
  | result :: rest =>
      match translate_single_result self result target_fields format warnings with
      | (OK translated_result, warnings') =>
          translate_results self rest target_fields format
            (results ++ [translated_result]) warnings'
      | (Raise e, warnings') => (Raise e, warnings')
      end
  end.

Definition format_search_response (self : service) (response0 : response)
    (common_search_params : gmap string param) (format : pyval)
    (warnings : list string) : outcome search_response * list string :=
  match get_results_list_from_response self response0 with
  | Raise e => (Raise e, warnings)
  | OK raw =>
      match translate_results self raw (get_fields common_search_params) format [] warnings with
      | (Raise e, warnings') => (Raise e, warnings')
      | (OK results, warnings') =>
          match get_num_results_from_response self response0 with
          | Raise e => (Raise e, warnings')
          | OK n => (OK {| num_results := n; results_list := results |}, warnings')
          end
      end
  end.

(** ** ACServiceTextSearchMixin *)

(** One probe of [get_supported_sorting_criteria]: the [try] statement around
    a call of [process_s_query_parameter], followed by the continuation [k]
    of the loop body. *)
Definition probe (self : service) (option : string) (desc : bool)
    (supported_criteria : list string) (entry : string)
    (k : list string → outcome (list string)) : outcome (list string) :=
  match process_s_query_parameter self option desc true with
  | OK _ => k (supported_criteria ++ [entry])
  | Raise e =>
      if isinstance e "ACException" then k supported_criteria
      else if isinstance e "NotImplementedError" then OK []
      else Raise e
  end.

Fixpoint sorting_criteria_loop (self : service) (options : list string)
    (supported_criteria : list string) : outcome (list string) :=
  match options with
  | [] => OK supported_criteria
  | option :: rest =>
      probe self option true supported_criteria ("-" +:+ option) (λ supported_criteria,
      probe self option false supported_criteria option (λ supported_criteria,
      sorting_criteria_loop self rest supported_criteria))
  end.

Definition get_supported_sorting_criteria (self : service) : outcome (list string) :=
  sorting_criteria_loop self SORT_OPTIONS [].

Definition translate_filter (self : service) (ac_field_name value : pyval)
    : outcome (string * pyval) :=
  let attempt : outcome (string * pyval) :=
    if dict_contains (direct_filters_mapping self) ac_field_name then
      key ← dict_getitem_val (direct_filters_mapping self) ac_field_name;
      OK (key, value)
    else
      match translate_filter_methods_registry self with
      | None => Raise (TypeError "'NoneType' object is not subscriptable")
      | Some registry =>
          method ← dict_getitem_val registry ac_field_name;
          method value
      end in
  match attempt with
  | OK r => OK r
  | Raise e =>
      if isinstance e "KeyError" then
        Raise (ACFilterParsingException
          ("Filter for field '" +:+ format0 ac_field_name +:+ "' not supported"))
      else if isinstance e "ACFilterParsingException" then Raise e
      else
        Raise (ACFilterParsingException
          ("Unexpected error processing filter for field '" +:+ format0 ac_field_name
             +:+ "' (" +:+ exn_name e +:+ ": " +:+ exn_str e +:+ ")"))
  end.

(** The three local predicates of [process_filter_element]. *)
Definition is_filter_term (parse_results : pyval) : outcome bool :=
  n ← py_len parse_results;
  if Nat.eqb n 3 then
    x ← py_getitem parse_results 1;
    OK (py_eq_str x ":")
  else OK false.

Definition is_operator (parse_results : pyval) : bool :=
  match parse_results with
  | VStr s => bool_decide (upper s ∈ ["AND"; "OR"; "NOT"])
  | _ => false
  end.

Definition is_not_structure (parse_results : pyval) : bool :=
  match (x ← py_getitem parse_results 0; u ← py_upper x; OK (String.eqb u "NOT")) with
  | OK b => b
  | Raise _ => false
  end.

(** [type(fvalue) == pyparsing.ParseResults and len(fvalue) == 2] *)
Definition is_range (fvalue : pyval) : bool :=
  match fvalue with
  | VParse items => Nat.eqb (length items) 2
  | _ => false
  end.

(** The call of [self.render_filter_term] with [kwargs]: besides [key], the
    keyword that matches the type of [value] is passed, the others keep
    their default [None]. *)
Definition render_filter_term_kwargs (self : service) (key : string) (value : pyval)
    : outcome pyval :=
  match value with
  | VInt _ | VFloat _ => render_filter_term self key VNone value VNone
  | VStr _ => render_filter_term self key value VNone VNone
  | VTuple [_; _] => render_filter_term self key VNone VNone value
  | _ => render_filter_term self key VNone VNone VNone
  end.

(** The translation step of the filter-term branch: from [fkey] and
    [fvalue] to the provider's [key] and [value]. *)
Definition translate_term (self : service) (fkey fvalue : pyval)
    : outcome (string * pyval) :=
  if is_range fvalue then
    (* filter of type range: the values are translated per separate *)
    lo ← py_getitem fvalue 0;
    '(key, value1) ← translate_filter self fkey lo;
    hi ← py_getitem fvalue 1;
    '(_, value2) ← translate_filter self fkey hi;
    OK (key, VTuple [value1; value2])
  else translate_filter self fkey fvalue.

(** The filter-term branch and the operator branch.  [filter_list] is the
    list the calls append to; each function returns its new content. *)
Definition process_term (self : service) (elm : pyval) (filter_list : list pyval)
    : outcome (list pyval) :=
  fkey ← py_getitem elm 0;
  fvalue ← py_getitem elm 2;
  '(key, value) ← translate_term self fkey fvalue;
  rendered ← render_filter_term_kwargs self key value;
  OK (filter_list ++ [rendered]).

Definition process_operator (self : service) (elm : pyval) (filter_list : list pyval)
    : outcome (list pyval) :=
  operator ← py_upper elm;
  rendered ← render_operator_term self operator;
  OK (filter_list ++ [rendered]).

Fixpoint process_filter_element (self : service) (elm : pyval)
    (filter_list : list pyval) {struct elm} : outcome (list pyval) :=
  term ← is_filter_term elm;
  if term : bool then process_term self elm filter_list
  else if is_operator elm then process_operator self elm filter_list
  else
    match elm with
    | VParse items =>
        let filter_list :=
          if negb (is_not_structure elm) then filter_list ++ [VStr "("] else filter_list in
        filter_list ←
          (fix walk (items : list pyval) (filter_list : list pyval) : outcome (list pyval) :=
             match items with
             | [] => OK filter_list
             | item :: rest =>
                 filter_list ← process_filter_element self item filter_list;
                 walk rest filter_list
             end) items filter_list;
        OK (if negb (is_not_structure elm) then filter_list ++ [VStr ")"] else filter_list)
    | _ => Raise (ACFilterParsingException "")  (* raised without a message *)
    end.

(** The [for item in elm] loop of the group branch, by name. *)
Fixpoint process_items (self : service) (items : list pyval) (filter_list : list pyval)
    : outcome (list pyval) :=
  match items with
  | [] => OK filter_list
  | item :: rest =>
      filter_list ← process_filter_element self item filter_list;
      process_items self rest filter_list
  end.

Definition build_filter_string (self : service) (filter_input_value : string)
    : outcome string :=
  parsed_filter ←
    match parse_filter filter_input_value with
    | OK parsed => OK parsed
    | Raise e =>
        if isinstance e "ParseException" then
          Raise (ACFilterParsingException
            ("Could not parse filter: " +:+ String "034" (filter_input_value +:+ String "034" "")))
        else Raise e
    end;
  root ← py_getitem parsed_filter 0;
  out_filter_list ← process_filter_element self root [];
  first ← list_getitem out_filter_list 0;
  let out_filter_list :=
    if py_eq_str first "(" then slice_1_m1 out_filter_list else out_filter_list in
  join out_filter_list.

(** The bodies the mixin gives to the methods an adapter is expected to
    override. *)
Definition default_render_filter_term (key : string)
    (value_text value_number value_range : pyval) : outcome pyval :=
  let _ := NotImplementedError
    "Service must implement method ACServiceTextSearchMixin.render_filter_term to support filtering" in
  OK VNone.

Definition default_render_operator_term (operator : string) : outcome pyval :=
  let _ := NotImplementedError
    "Service must implement method ACServiceTextSearchMixin.render_operator_term to support filtering" in
  OK VNone.

Definition default_process_s_query_parameter (s : string) (desc : bool)
    (raise_exception_if_unsupported : bool) : outcome (gmap string pyval) :=
  Raise (NotImplementedError ("Parameter '" +:+ QUERY_PARAM_SORT +:+ "' not supported")).

(** ** Vocabulary of the statements *)

(** The situations in which a field has no translation, each with the text
    that describes its cause. *)
Inductive untranslatable (self : service) (ac_field_name : string)
    (result : gmap string pyval) : string → Prop :=
  | no_entry registry :
      direct_fields_mapping self !! ac_field_name = None →
      translate_field_methods_registry self = Some registry →
      registry !! ac_field_name = None →
      untranslatable self ac_field_name result "unexpected field"
  | registry_unset :
      direct_fields_mapping self !! ac_field_name = None →
      translate_field_methods_registry self = None →
      untranslatable self ac_field_name result
        ("TypeError: argument of type 'NoneType' is not iterable")
  | key_absent key :
      direct_fields_mapping self !! ac_field_name = Some key →
      result !! key = None →
      untranslatable self ac_field_name result ("KeyError: " +:+ py_repr (VStr key))
  | method_raises registry method e :
      direct_fields_mapping self !! ac_field_name = None →
      translate_field_methods_registry self = Some registry →
      registry !! ac_field_name = Some method →
      method result = Raise e →
      untranslatable self ac_field_name result (exn_name e +:+ ": " +:+ exn_str e).


(** The value a requested field gets in a translated result, the warnings
    a result gives rise to for a list of requested fields, and the fields a
    search asks for. *)
Definition field_value (self : service) (result : gmap string pyval)
    (ac_field_name : string) : option pyval :=
  match translate_field self ac_field_name result with
  | OK v => Some v
  | Raise _ => None
  end.

Definition field_warnings (self : service) (result : gmap string pyval)
    (names : list string) : list string :=
  flat_map (λ ac_field_name,
    match translate_field self ac_field_name result with
    | OK _ => []
    | Raise _ => ["Can't return unsupported field " +:+ ac_field_name]
    end) names.

Definition requested_fields (common_search_params : gmap string param) : list string :=
  match get_fields common_search_params with
  | PList names => names
  | _ => []
  end.

(** The probes of the sorting criteria, in the order they are made: each
    option in descending, then in ascending direction.  A probe is quiet
    when it returns or raises an [ACException]; it signals that sorting is
    not implemented when [NotImplementedError] is what it raises. *)
Definition probes (options : list string) : list (string * bool) :=
  flat_map (λ option, [(option, true); (option, false)]) options.

Definition criterion (p : string * bool) : string :=
  if p.2 then "-" +:+ p.1 else p.1.

Definition quiet (self : service) (p : string * bool) : Prop :=
  match process_s_query_parameter self p.1 p.2 true with
  | OK _ => True
  | Raise e => isinstance e "ACException" = true
  end.

Definition not_implemented (self : service) (p : string * bool) : Prop :=
  ∃ e, process_s_query_parameter self p.1 p.2 true = Raise e ∧
       isinstance e "ACException" = false ∧
       isinstance e "NotImplementedError" = true.

Definition supported (self : service) (p : string * bool) : list string :=
  match process_s_query_parameter self p.1 p.2 true with
  | OK _ => [criterion p]
  | Raise _ => []
  end.

(** The probes run as one sequence: the rest of the loop of
    [get_supported_sorting_criteria] from a given probe on. *)
Fixpoint run_probes (self : service) (ps : list (string * bool))
    (supported_criteria : list string) : outcome (list string) :=
  match ps with
  | [] => OK supported_criteria
  | p :: rest =>
      probe self p.1 p.2 supported_criteria (criterion p) (run_probes self rest)
  end.

End Mixins.

(** ** A sample adapter

    A concrete adapter and environment on which the statements below are
    exercised: filter terms render as [key=value], operators as the operator
    between two spaces. *)

Definition sample_text (v : pyval) : string :=
  match v with
  | VStr s => s
  | VTuple [VStr a; VStr b] => "[" +:+ a +:+ " TO " +:+ b +:+ "]"
  | _ => "?"
  end.

Definition sample_render_filter_term (key : string)
    (value_text value_number value_range : pyval) : outcome pyval :=
  match value_text, value_number, value_range with
  | VNone, VNone, v | VNone, v, _ | v, _, _ => OK (VStr (key +:+ "=" +:+ sample_text v))
  end.

Definition sample_render_operator_term (operator : string) : outcome pyval :=
  OK (VStr (" " +:+ operator +:+ " ")).

Definition sample_term (field value : string) : pyval :=
  VParse [VStr field; VStr ":"; VStr value].

Definition sample_range (field low high : string) : pyval :=
  VParse [VStr field; VStr ":"; VParse [VStr low; VStr high]].

(** The tree of ["(a:1 OR b:2) AND NOT c:3"]: two levels, an OR group and
    a NOT group joined by AND. *)
Definition sample_nested : pyval :=
  VParse [VParse [sample_term "a" "1"; VStr "OR"; sample_term "b" "2"];
          VStr "AND";
          VParse [VStr "NOT"; sample_term "c" "3"]].

(** Stands for the grammar on the filter strings used below; every other
    string is rejected as pyparsing does. *)
Definition sample_parse_filter (s : string) : outcome pyval :=
  if String.eqb s "a:1" then OK (VParse [sample_term "a" "1"])
  else if String.eqb s "(a:1)" then OK (VParse [VParse [sample_term "a" "1"]])
  else if String.eqb s "(a:1 OR b:2) AND NOT c:3" then OK (VParse [sample_nested])
  else if String.eqb s "dur:[1,5]" then OK (VParse [sample_range "dur" "1" "5"])
  else Raise (Exn "ParseException" [] "Expected end of text").

Definition sample_env : environment := {|
  py_str := λ _, "<value>";
  py_repr := λ v, match v with VStr s => "'" +:+ s +:+ "'" | _ => "<value>" end;
  parse_filter := sample_parse_filter;
  SORT_OPTIONS := ["relevance"; "popularity"; "duration"];
  QUERY_PARAM_SORT := "s"
|}.

Definition sample_translate_name (result : gmap string pyval) : outcome pyval :=
  OK (default VNone (result !! "title")).

Definition sample_translate_license (result : gmap string pyval) : outcome pyval :=
  Raise (Exn "ValueError" [] "unknown license").

(** A translator whose provider key depends on the value it is given. *)
Definition sample_filter_duration (value : pyval) : outcome (string * pyval) :=
  OK (if py_eq_str value "1" then "min_duration" else "max_duration", value).

Definition sample_filter_format (value : pyval) : outcome (string * pyval) :=
  Raise (KeyError "'wav'").

Definition sample_process_s (s : string) (desc raise_exception_if_unsupported : bool)
    : outcome (gmap string pyval) :=
  if String.eqb s "relevance" then OK {[ "sort" := VStr s ]}
  else if String.eqb s "duration" && desc then OK {[ "sort" := VStr "duration_desc" ]}
  else Raise (Exn "ACException" [] "Sorting criteria not supported").

Definition sample_service : service (response := list (gmap string pyval)) := {|
  direct_fields_mapping := {[ "id" := "identifier"; "url" := "guid" ]};
  translate_field_methods_registry :=
    Some {[ "name" := sample_translate_name;
            "id" := sample_translate_name;
            "license" := sample_translate_license ]};
  get_results_list_from_response := λ response, OK response;
  get_num_results_from_response := λ response, OK (Z.of_nat (length response));
  direct_filters_mapping := {[ "a" := "a"; "b" := "b"; "c" := "c" ]};
  translate_filter_methods_registry :=
    Some {[ "dur" := sample_filter_duration; "format" := sample_filter_format ]};
  render_filter_term := sample_render_filter_term;
  render_operator_term := sample_render_operator_term;
  process_s_query_parameter := sample_process_s
|}.

(** The adapter that overrides nothing of the text-search mixin. *)
Definition base_service : service (response := list (gmap string pyval)) := {|
  direct_fields_mapping := ∅;
  translate_field_methods_registry := Some ∅;
  get_results_list_from_response := λ response, OK response;
  get_num_results_from_response := λ response, OK (Z.of_nat (length response));
  direct_filters_mapping := ∅;
  translate_filter_methods_registry := Some ∅;
  render_filter_term := default_render_filter_term;
  render_operator_term := default_render_operator_term;
  process_s_query_parameter := default_process_s_query_parameter (env := sample_env)
|}.

(** An adapter that declares one filter and no renderer, sorts by relevance
    and whose sort translator gives up with [NotImplementedError] on
    everything else. *)
Definition partial_process_s (s : string) (desc raise_exception_if_unsupported : bool)
    : outcome (gmap string pyval) :=
  if String.eqb s "relevance" then OK {[ "sort" := VStr s ]}
  else Raise (NotImplementedError "Parameter 's' not supported").

Definition partial_service : service (response := list (gmap string pyval)) := {|
  direct_fields_mapping := ∅;
  translate_field_methods_registry := Some ∅;
  get_results_list_from_response := λ response, OK response;
  get_num_results_from_response := λ response, OK (Z.of_nat (length response));
  direct_filters_mapping := {[ "a" := "a" ]};
  translate_filter_methods_registry := Some ∅;
  render_filter_term := default_render_filter_term;
  render_operator_term := default_render_operator_term;
  process_s_query_parameter := partial_process_s
|}.

(** ** The rest of the two mixins *)

(** More constants of [services.acservice.constants]. *)
Class constants : Type := {
  ACID_SEPARATOR_CHAR : string;
  QUERY_PARAM_QUERY : string;
  QUERY_PARAM_FILTER : string;
  QUERY_PARAM_SIZE : string;
  QUERY_PARAM_PAGE : string
}.

(** A method that may add response warnings on its way: it takes the list
    of warnings and returns it, grown, beside its outcome. *)
Definition action (A : Type) : Type := list string → outcome A * list string.

Definition pure {A} (a : A) : action A := λ warnings, (OK a, warnings).

Definition lift {A} (m : outcome A) : action A := λ warnings, (m, warnings).

Definition and_then {A B} (m : action A) (k : A → action B) : action B :=
  λ warnings,
    match m warnings with
    | (OK a, warnings) => k a warnings
    | (Raise e, warnings) => (Raise e, warnings)
    end.

Notation "'do' x <- m ; k" := (and_then m (λ x, k))
  (at level 10, x name, m at level 100, k at level 200).

(** [s.startswith('-')] and [s[1:]] *)
Definition startswith_dash (s : string) : bool := String.prefix "-" s.

Definition slice_1 (s : string) : string :=
  match s with
  | EmptyString => EmptyString
  | String _ rest => rest
  end.

Section MoreMixins.
Context `{env : environment} `{cst : constants} {response : Type}.

(** [list(d.keys())]; the keys come in the order of the map, not in the
    order of insertion a Python dictionary keeps. *)
Definition keys {A} (d : gmap string A) : list string := (map_to_list d).*1.

Definition get_supported_fields (self : service (response := response))
    : outcome (list string) :=
  match translate_field_methods_registry self with
  | None => Raise (AttributeError "'NoneType' object has no attribute 'keys'")
  | Some registry => OK (keys (direct_fields_mapping self) ++ keys registry)
  end.

Definition get_supported_filters (self : service (response := response))
    : outcome (list string) :=
  match translate_filter_methods_registry self with
  | None => Raise (AttributeError "'NoneType' object has no attribute 'keys'")
  | Some registry => OK (keys (direct_filters_mapping self) ++ keys registry)
  end.

(** The adapter with the attributes and methods [service] leaves
    out.  [mixin] is the part described so far.  The [process_] methods, the
    extra parameters and the request may add warnings;
    [process_s_query_parameter_in_search] is [process_s_query_parameter] as
    [text_search] calls it, with two arguments. *)
Record search_adapter : Type := {
  mixin : service (response := response);
  name : string;
  SERVICE_ID_FIELDNAME : string;
  TEXT_SEARCH_ENDPOINT_URL : string;
  process_q_query_parameter : pyval → action (gmap string pyval);
  process_f_query_parameter : pyval → action (gmap string pyval);
  process_s_query_parameter_in_search : string → bool → action (gmap string pyval);
  process_size_query_parameter : param → gmap string param → action (gmap string pyval);
  process_page_query_parameter : param → gmap string param → action (gmap string pyval);
  add_extra_search_query_params : action (gmap string pyval);
  send_request : string → gmap string pyval → action response
}.

Definition id_prefix (self : search_adapter) : string :=
  name self +:+ ACID_SEPARATOR_CHAR.

Definition translate_field_id (self : search_adapter) (result : gmap string pyval)
    : outcome pyval :=
  let prefix := id_prefix self in
  v ← dict_getitem result (SERVICE_ID_FIELDNAME self);
  OK (VStr (prefix +:+ format0 v)).

(** A [try] around a call whose dictionary updates [query_params], with
    [except NotImplementedError as e: self.add_response_warning(str(e))]. *)
Definition update_or_warn (call : action (gmap string pyval))
    (query_params : gmap string pyval) : action (gmap string pyval) :=
  λ warnings,
    match call warnings with
    | (OK params, warnings) => (OK (params ∪ query_params), warnings)
    | (Raise e, warnings) =>
        if isinstance e "NotImplementedError" then
          (OK query_params, add_response_warning warnings (exn_str e))
        else (Raise e, warnings)
    end.

Definition process_common_search_params (self : search_adapter)
    (common_search_params : gmap string param) : action (gmap string pyval) :=
  let params : gmap string pyval := ∅ in
  do size <- lift (dict_getitem common_search_params QUERY_PARAM_SIZE);
  do params <-
    match size with
    | PNone => pure params
    | _ => update_or_warn (process_size_query_parameter self size common_search_params) params
    end;
  do page <- lift (dict_getitem common_search_params QUERY_PARAM_PAGE);
  do params <-
    match page with
    | PNone => pure params
    | _ => update_or_warn (process_page_query_parameter self page common_search_params) params
    end;
  pure params.

(** The three blocks of [text_search] for [q], [f] and [s]. *)
Definition process_q (self : search_adapter) (q : pyval)
    (query_params : gmap string pyval) : action (gmap string pyval) :=
  update_or_warn (process_q_query_parameter self q) query_params.

Definition process_f (self : search_adapter) (f : pyval)
    (query_params : gmap string pyval) : action (gmap string pyval) :=
  match f with
  | VNone => pure query_params
  | _ => update_or_warn (process_f_query_parameter self f) query_params
  end.

Definition process_s (self : search_adapter) (s : pyval)
    (query_params : gmap string pyval) : action (gmap string pyval) :=
  match s with
  | VNone => pure query_params
  | VStr s =>
      let desc := false in
      let '(desc, s) := if startswith_dash s then (true, slice_1 s) else (desc, s) in
      update_or_warn (process_s_query_parameter_in_search self s desc) query_params
  | _ =>
      lift (Raise (AttributeError
        ("'" +:+ type_name s +:+ "' object has no attribute 'startswith'")))
  end.

(** The extra parameters are added where the key is free. *)
Definition add_extra (extra query_params : gmap string pyval) : gmap string pyval :=
  let params_to_add := filter (λ kv, query_params !! kv.1 = None) extra in
  params_to_add ∪ query_params.

(** [text_search] up to the request: the parameters it sends. *)
Definition text_search_query_params (self : search_adapter) (q f s : pyval)
    (common_search_params : gmap string param) : action (gmap string pyval) :=
  let query_params : gmap string pyval := ∅ in
  do query_params <- process_q self q query_params;
  do query_params <- process_f self f query_params;
  do query_params <- process_s self s query_params;
  do common <- process_common_search_params self common_search_params;
  let query_params := common ∪ query_params in
  do extra <- add_extra_search_query_params self;
  pure (add_extra extra query_params).

Definition text_search (self : search_adapter) (context : gmap string pyval)
    (q f s : pyval) (common_search_params : gmap string param) : action search_response :=
  do query_params <- text_search_query_params self q f s common_search_params;
  do response0 <- send_request self (TEXT_SEARCH_ENDPOINT_URL self) query_params;
  do format <- lift (dict_getitem context "format");
  format_search_response (mixin self) response0 common_search_params format.

(** The bodies the mixins give to the methods that process parameters. *)
Definition not_supported (param_name : string) : exn :=
  NotImplementedError ("Parameter '" +:+ param_name +:+ "' not supported").

Definition default_process_q_query_parameter (q : pyval) : action (gmap string pyval) :=
  lift (Raise (not_supported QUERY_PARAM_QUERY)).

Definition default_process_f_query_parameter (f : pyval) : action (gmap string pyval) :=
  lift (Raise (not_supported QUERY_PARAM_FILTER)).

Definition default_process_s_query_parameter_in_search (s : string) (desc : bool)
    : action (gmap string pyval) :=
  lift (default_process_s_query_parameter s desc false).

Definition default_process_size_query_parameter (size : param)
    (common_search_params : gmap string param) : action (gmap string pyval) :=
  lift (Raise (not_supported QUERY_PARAM_SIZE)).

Definition default_process_page_query_parameter (page : param)
    (common_search_params : gmap string param) : action (gmap string pyval) :=
  lift (Raise (not_supported QUERY_PARAM_PAGE)).

Definition default_add_extra_search_query_params : action (gmap string pyval) :=
  pure ∅.

Definition default_get_results_list_from_response (response0 : response)
    : outcome (list (gmap string pyval)) :=
  Raise (NotImplementedError
    "Service must implement method BaseACServiceSearchMixin.get_results_list_from_response").

Definition default_get_num_results_from_response (response0 : response) : outcome Z :=
  Raise (NotImplementedError
    "Service must implement method BaseACServiceSearchMixin.get_results_list_from_response").

(** ** More vocabulary *)

(** The filter terms of a parsed filter, as [(fkey, fvalue)] in the order
    [process_filter_element] meets them, and the number of tokens the
    rendering of a node has. *)
Fixpoint filter_terms (elm : pyval) : list (pyval * pyval) :=
  match is_filter_term elm with
  | OK true =>
      match py_getitem elm 0, py_getitem elm 2 with
      | OK fkey, OK fvalue => [(fkey, fvalue)]
      | _, _ => []
      end
  | OK false =>
      if is_operator elm then []
      else
        match elm with
        | VParse items => flat_map filter_terms items
        | _ => []
        end
  | Raise _ => []
  end.

Fixpoint count_tokens (elm : pyval) : nat :=
  match is_filter_term elm with
  | OK true => 1
  | OK false =>
      if is_operator elm then 1
      else
        match elm with
        | VParse items =>
            (if is_not_structure elm then 0 else 2) + sum_list_with count_tokens items
        | _ => 0
        end
  | Raise _ => 0
  end.

End MoreMixins.

(** ** A sample search adapter *)

Definition sample_constants : constants := {|
  ACID_SEPARATOR_CHAR := ":";
  QUERY_PARAM_QUERY := "q";
  QUERY_PARAM_FILTER := "f";
  QUERY_PARAM_SIZE := "size";
  QUERY_PARAM_PAGE := "page"
|}.

Definition sample_process_size (size : param) (common_search_params : gmap string param)
    : action (gmap string pyval) :=
  match size with
  | PInt n => pure {[ "rows" := VInt n ]}
  | _ => lift (Raise (Exn "ValueError" [] "size must be a number"))
  end.

Definition sample_process_page (page : param) (common_search_params : gmap string param)
    : action (gmap string pyval) :=
  match page with
  | PInt n => pure {[ "start" := VInt n; "rows" := VInt 10 ]}
  | _ => lift (Raise (Exn "ValueError" [] "page must be a number"))
  end.

Definition sample_response : list (gmap string pyval) :=
  [ {[ "identifier" := VInt 7; "title" := VStr "t" ]}; {[ "title" := VStr "u" ]} ].

(** An adapter that translates the query, the sort criterion, size and
    page, leaves the filter to the mixin, and adds two extra parameters. *)
Definition sample_adapter : search_adapter (response := list (gmap string pyval)) := {|
  mixin := sample_service;
  name := "Sample";
  SERVICE_ID_FIELDNAME := "id";
  TEXT_SEARCH_ENDPOINT_URL := "http://example.com/api/search/";
  process_q_query_parameter := λ q, pure {[ "query" := q ]};
  process_f_query_parameter := default_process_f_query_parameter (cst := sample_constants);
  process_s_query_parameter_in_search := λ s desc,
    pure {[ "sort" := VStr s; "order" := VStr (if desc then "desc" else "asc") ]};
  process_size_query_parameter := sample_process_size;
  process_page_query_parameter := sample_process_page;
  add_extra_search_query_params := pure {[ "query" := VStr "*"; "wskey" := VStr "k" ]};
  send_request := λ url params, pure sample_response
|}.

(** The adapter that overrides none of the methods that process parameters. *)
Definition default_adapter : search_adapter (response := list (gmap string pyval)) := {|
  mixin := base_service;
  name := "Base";
  SERVICE_ID_FIELDNAME := "id";
  TEXT_SEARCH_ENDPOINT_URL := "http://example.com/api/search/";
  process_q_query_parameter := default_process_q_query_parameter (cst := sample_constants);
  process_f_query_parameter := default_process_f_query_parameter (cst := sample_constants);
  process_s_query_parameter_in_search :=
    default_process_s_query_parameter_in_search (env := sample_env);
  process_size_query_parameter := default_process_size_query_parameter (cst := sample_constants);
  process_page_query_parameter := default_process_page_query_parameter (cst := sample_constants);
  add_extra_search_query_params := default_add_extra_search_query_params;
  send_request := λ url params, pure sample_response
|}.

(** An adapter whose filter translators refuse their value, and one whose
    registries were never built. *)
Definition strict_filter_bpm (value : pyval) : outcome (string * pyval) :=
  Raise (Exn "ValueError" [] "not a number").

Definition strict_filter_license (value : pyval) : outcome (string * pyval) :=
  Raise (ACFilterParsingException "Unknown license").

Definition strict_service : service (response := list (gmap string pyval)) := {|
  direct_fields_mapping := ∅;
  translate_field_methods_registry := Some ∅;
  get_results_list_from_response := default_get_results_list_from_response;
  get_num_results_from_response := default_get_num_results_from_response;
  direct_filters_mapping := ∅;
  translate_filter_methods_registry :=
    Some {[ "bpm" := strict_filter_bpm; "license" := strict_filter_license ]};
  render_filter_term := sample_render_filter_term;
  render_operator_term := sample_render_operator_term;
  process_s_query_parameter := sample_process_s
|}.

Definition unconfigured_service : service (response := list (gmap string pyval)) := {|
  direct_fields_mapping := ∅;
  translate_field_methods_registry := None;
  get_results_list_from_response := default_get_results_list_from_response;
  get_num_results_from_response := default_get_num_results_from_response;
  direct_filters_mapping := ∅;
  translate_filter_methods_registry := None;
  render_filter_term := default_render_filter_term;
  render_operator_term := default_render_operator_term;
  process_s_query_parameter := default_process_s_query_parameter (env := sample_env)
|}.

(** An adapter whose sort translator fails on one option with an exception
    of its own, and whose count accessor fails. *)
Definition crashing_process_s (s : string) (desc raise_exception_if_unsupported : bool)
    : outcome (gmap string pyval) :=
  if String.eqb s "popularity" then Raise (KeyError "'popularity'")
  else OK {[ "sort" := VStr s ]}.

Definition crashing_service : service (response := list (gmap string pyval)) := {|
  direct_fields_mapping := {[ "id" := "identifier" ]};
  translate_field_methods_registry := Some ∅;
  get_results_list_from_response := λ response, OK response;
  get_num_results_from_response := default_get_num_results_from_response;
  direct_filters_mapping := ∅;
  translate_filter_methods_registry := Some ∅;
  render_filter_term := sample_render_filter_term;
  render_operator_term := sample_render_operator_term;
  process_s_query_parameter := crashing_process_s
|}.

(** The sample adapter with a query method that refuses its query. *)
Definition failing_adapter : search_adapter (response := list (gmap string pyval)) := {|
  mixin := sample_service;
  name := "Failing";
  SERVICE_ID_FIELDNAME := "id";
  TEXT_SEARCH_ENDPOINT_URL := "http://example.com/api/search/";
  process_q_query_parameter := λ q, lift (Raise (Exn "ValueError" [] "empty query"));
  process_f_query_parameter := default_process_f_query_parameter (cst := sample_constants);
  process_s_query_parameter_in_search := λ s desc, pure {[ "sort" := VStr s ]};
  process_size_query_parameter := sample_process_size;
  process_page_query_parameter := sample_process_page;
  add_extra_search_query_params := pure ∅;
  send_request := λ url params, pure sample_response
|}.

(** ** Vocabulary of the outermost parentheses *)




(** The sample environment with a [str] that writes integers in decimal. *)
Definition decimal_env : environment := {|
  py_str := λ v, match v with VInt n => pretty n | _ => "<value>" end;
  py_repr := py_repr (environment := sample_env);
  parse_filter := sample_parse_filter;
  SORT_OPTIONS := SORT_OPTIONS (environment := sample_env);
  QUERY_PARAM_SORT := "s"
|}.

(** * Properties *)

Lemma append_assoc (a b c : string) : (a +:+ b) +:+ c = a +:+ (b +:+ c).
Proof. induction a as [|x a IH]; [reflexivity | exact (f_equal (String x) IH)]. Qed.

Section FieldTranslation.
Context `{env : environment} {response : Type}.
Implicit Types (self : service (response := response)) (result : gmap string pyval).

(** Every exception that leaves [translate_field] is the mixin's own. *)
Lemma translate_field_raises self ac_field_name result e :
  translate_field self ac_field_name result = Raise e →
  exn_name e = "ACFieldTranslateException".
Proof.
  unfold translate_field.
  destruct (direct_fields_mapping self !! ac_field_name) as [key|].
  - unfold dict_getitem. destruct (result !! key); simpl; intros [= <-]; done.
  - destruct (translate_field_methods_registry self) as [registry|]; simpl.
    + destruct (registry !! ac_field_name) as [method|]; simpl.
      * destruct (method result); simpl; intros [= <-]; done.
      * intros [= <-]; done.
    + intros [= <-]; done.
Qed.

(** C6. Whenever [ac_field_name] has no entry in the direct mapping nor in
    the registry of translate methods, or the key it maps to is absent from
    [result], or its translate method raises, [translate_field] raises
    [ACFieldTranslateException], and the message of that exception carries
    the cause: the class and text of the original exception, or the words
    "unexpected field" when no exception is behind the failure. *)
Theorem C6_translate_field_error self ac_field_name result cause :
  untranslatable self ac_field_name result cause →
  translate_field self ac_field_name result =
    Raise (ACFieldTranslateException
      ("Can't translate field '" +:+ ac_field_name +:+ "' (" +:+ cause +:+ ")")).
Proof.
  intros H. unfold translate_field.
  destruct H as [registry Hd Hr Hn | Hd Hr | key Hd Hk | registry method e Hd Hr Hm He].
  - rewrite Hd, Hr, Hn. reflexivity.
  - rewrite Hd, Hr. reflexivity.
  - rewrite Hd. unfold dict_getitem. rewrite Hk. reflexivity.
  - rewrite Hd, Hr, Hm, He. cbn [mbind outcome_bind]. by rewrite !append_assoc.
Qed.

(** C7. A field of the direct mapping whose mapped key is in [result]
    translates to [result[mapped_key]] itself, and the registry of translate
    methods has no say in it: any adapter with the same direct mapping gives
    the same value, whatever method it registers for the field. *)
Theorem C7_direct_mapping self ac_field_name key result v :
  direct_fields_mapping self !! ac_field_name = Some key →
  result !! key = Some v →
  translate_field self ac_field_name result = OK v ∧
  ∀ self', direct_fields_mapping self' = direct_fields_mapping self →
    translate_field self' ac_field_name result = OK v.
Proof.
  intros Hd Hk.
  assert (∀ self', direct_fields_mapping self' = direct_fields_mapping self →
    translate_field self' ac_field_name result = OK v) as H.
  { intros self' Heq. unfold translate_field, dict_getitem.
    rewrite Heq, Hd, Hk. reflexivity. }
  split; [by apply H | exact H].
Qed.

End FieldTranslation.

Lemma C6_translate_field_error_witness :
  translate_field (env := sample_env) sample_service "license" {[ "title" := VStr "t" ]} =
    Raise (ACFieldTranslateException
      "Can't translate field 'license' (ValueError: unknown license)").
Proof.
  apply (C6_translate_field_error (env := sample_env) sample_service "license"
           {[ "title" := VStr "t" ]} "ValueError: unknown license").
  eapply (method_raises (env := sample_env) sample_service "license" _ _
            sample_translate_license (Exn "ValueError" [] "unknown license"));
    vm_compute; reflexivity.
Defined.

Lemma C7_direct_mapping_witness :
  translate_field (env := sample_env) sample_service "id"
    {[ "identifier" := VInt 7; "title" := VStr "t" ]} = OK (VInt 7) ∧
  ∀ self' : service (response := list (gmap string pyval)),
    direct_fields_mapping self' = direct_fields_mapping sample_service →
    translate_field (env := sample_env) self' "id"
      {[ "identifier" := VInt 7; "title" := VStr "t" ]} = OK (VInt 7).
Proof.
  apply (C7_direct_mapping (env := sample_env) sample_service "id" "identifier"
           {[ "identifier" := VInt 7; "title" := VStr "t" ]} (VInt 7));
    vm_compute; reflexivity.
Defined.

Section FilterTranslation.
Context `{env : environment} {response : Type}.
Implicit Types (self : service (response := response)).

(** What [translate_filter] does with a field the direct mapping lacks and
    the registry translates with [method]. *)
Lemma translate_filter_method self ac_field_name value registry method :
  direct_filters_mapping self !! ac_field_name = None →
  translate_filter_methods_registry self = Some registry →
  registry !! ac_field_name = Some method →
  translate_filter self (VStr ac_field_name) value =
    match method value with
    | OK r => OK r
    | Raise e =>
        if isinstance e "KeyError" then
          Raise (ACFilterParsingException
            ("Filter for field '" +:+ ac_field_name +:+ "' not supported"))
        else if isinstance e "ACFilterParsingException" then Raise e
        else
          Raise (ACFilterParsingException
            ("Unexpected error processing filter for field '" +:+ ac_field_name
               +:+ "' (" +:+ exn_name e +:+ ": " +:+ exn_str e +:+ ")"))
    end.
Proof.
  intros Hd Hr Hm. unfold translate_filter, dict_contains, dict_getitem_val, dict_getitem.
  rewrite Hd, Hr, Hm.
  rewrite bool_decide_eq_false_2 by (intros [? [=]]).
  reflexivity.
Qed.

Lemma translate_filter_no_entry self ac_field_name value registry :
  direct_filters_mapping self !! ac_field_name = None →
  translate_filter_methods_registry self = Some registry →
  registry !! ac_field_name = None →
  translate_filter self (VStr ac_field_name) value =
    Raise (ACFilterParsingException
      ("Filter for field '" +:+ ac_field_name +:+ "' not supported")).
Proof.
  intros Hd Hr Hn. unfold translate_filter, dict_contains, dict_getitem_val, dict_getitem.
  rewrite Hd, Hr, Hn.
  rewrite bool_decide_eq_false_2 by (intros [? [=]]).
  reflexivity.
Qed.


(** C10. A filter translator that raises [KeyError] makes [translate_filter]
    fail with the message "Filter for field 'X' not supported", and an
    adapter that registers nothing for the field fails with the same
    exception: the two cannot be told apart by the caller. *)
Theorem C10_translator_KeyError self self' ac_field_name value registry method e registry' :
  direct_filters_mapping self !! ac_field_name = None →
  translate_filter_methods_registry self = Some registry →
  registry !! ac_field_name = Some method →
  method value = Raise e →
  isinstance e "KeyError" = true →
  direct_filters_mapping self' !! ac_field_name = None →
  translate_filter_methods_registry self' = Some registry' →
  registry' !! ac_field_name = None →
  translate_filter self (VStr ac_field_name) value =
    Raise (ACFilterParsingException
      ("Filter for field '" +:+ ac_field_name +:+ "' not supported")) ∧
  translate_filter self (VStr ac_field_name) value =
    translate_filter self' (VStr ac_field_name) value.
Proof.
  intros Hd Hr Hm He Hi Hd' Hr' Hn'.
  rewrite (translate_filter_method _ _ _ _ _ Hd Hr Hm), He, Hi.
  rewrite (translate_filter_no_entry _ _ _ _ Hd' Hr' Hn').
  split; reflexivity.
Qed.

End FilterTranslation.


Lemma C10_translator_KeyError_witness :
  translate_filter (env := sample_env) sample_service (VStr "format") (VStr "wav") =
    Raise (ACFilterParsingException "Filter for field 'format' not supported") ∧
  translate_filter (env := sample_env) sample_service (VStr "format") (VStr "wav") =
    translate_filter (env := sample_env) base_service (VStr "format") (VStr "wav").
Proof.
  eapply (C10_translator_KeyError (env := sample_env) sample_service base_service
            "format" (VStr "wav") _ sample_filter_format (KeyError "'wav'") ∅);
    vm_compute; reflexivity.
Defined.

Section ResponseTranslation.
Context `{env : environment} {response : Type}.
Implicit Types (self : service (response := response)) (result : gmap string pyval).

(** The loop over the target fields never raises; it adds the fields that
    translate and one warning for each that does not. *)
Lemma translate_fields_spec self result names :
  ∀ translated warnings,
  ∃ translated',
    translate_fields self result names translated warnings =
      (OK translated', warnings ++ field_warnings self result names) ∧
    ∀ name, translated' !! name =
      match (if bool_decide (name ∈ names) then field_value self result name else None) with
      | Some v => Some v
      | None => translated !! name
      end.
Proof.
  induction names as [|name0 rest IH]; intros translated warnings.
  - exists translated. cbn [translate_fields field_warnings flat_map].
    rewrite app_nil_r. split; [reflexivity|].
    intros name. rewrite bool_decide_eq_false_2 by apply not_elem_of_nil. reflexivity.
  - cbn [translate_fields field_warnings flat_map]. unfold field_value in *.
    destruct (translate_field self name0 result) as [v|e] eqn:Ht.
    + destruct (IH (<[name0 := v]> translated) warnings) as (tr & -> & Hl).
      exists tr. split; [reflexivity|]. intros name. rewrite Hl.
      destruct (decide (name = name0)) as [->|Hne].
      * rewrite (bool_decide_eq_true_2 (name0 ∈ name0 :: rest)) by apply list_elem_of_here.
        rewrite Ht, lookup_insert_eq.
        destruct (bool_decide (name0 ∈ rest)); reflexivity.
      * rewrite lookup_insert_ne by congruence.
        rewrite (bool_decide_ext (name ∈ name0 :: rest) (name ∈ rest)); [reflexivity|].
        rewrite elem_of_cons. split; [intros [?|?]; [congruence | assumption] | by right].
    + pose proof (translate_field_raises _ _ _ _ Ht) as Hn.
      unfold isinstance. rewrite Hn. simpl.
      destruct (IH translated
                  (add_response_warning warnings ("Can't return unsupported field " +:+ name0)))
        as (tr & -> & Hl).
      exists tr. split.
      * unfold add_response_warning. by rewrite <- app_assoc.
      * intros name. rewrite Hl.
        destruct (decide (name = name0)) as [->|Hne].
        -- rewrite (bool_decide_eq_true_2 (name0 ∈ name0 :: rest)) by apply list_elem_of_here.
           rewrite Ht. destruct (bool_decide (name0 ∈ rest)); reflexivity.
        -- rewrite (bool_decide_ext (name ∈ name0 :: rest) (name ∈ rest)); [reflexivity|].
           rewrite elem_of_cons. split; [intros [?|?]; [congruence | assumption] | by right].
Qed.

(** One result: the translated object holds exactly the requested fields
    that translate, and an unset list of fields behaves as the empty list. *)
Lemma translate_single_result_spec self result target_fields format warnings :
  (∀ k, target_fields ≠ PInt k) →
  let names := match target_fields with PList names => names | _ => [] end in
  ∃ translated,
    translate_single_result self result target_fields format warnings =
      (OK translated, warnings ++ field_warnings self result names) ∧
    ∀ name, translated !! name =
      if bool_decide (name ∈ names) then field_value self result name else None.
Proof.
  intros Hty names. unfold translate_single_result.
  assert (∃ translated,
    translate_fields self result names ∅ warnings =
      (OK translated, warnings ++ field_warnings self result names) ∧
    ∀ name, translated !! name =
      if bool_decide (name ∈ names) then field_value self result name else None) as H.
  { destruct (translate_fields_spec self result names ∅ warnings) as (tr & Heq & Hl).
    exists tr. split; [exact Heq|]. intros name. rewrite Hl, lookup_empty.
    destruct (bool_decide (name ∈ names)); [|reflexivity].
    destruct (field_value self result name); reflexivity. }
  destruct target_fields as [|k|l]; [exact H | by destruct (Hty k) | exact H].
Qed.

Lemma translate_results_spec self target_fields format raw :
  (∀ k, target_fields ≠ PInt k) →
  let names := match target_fields with PList names => names | _ => [] end in
  ∀ results warnings,
  ∃ translated,
    translate_results self raw target_fields format results warnings =
      (OK (results ++ translated),
       warnings ++ flat_map (λ result, field_warnings self result names) raw) ∧
    Forall2 (λ result translated_result, ∀ name,
      translated_result !! name =
        if bool_decide (name ∈ names) then field_value self result name else None)
      raw translated.
Proof.
  intros Hty names. induction raw as [|result rest IH]; intros results warnings.
  - exists []. simpl. rewrite !app_nil_r. split; [reflexivity | constructor].
  - simpl.
    destruct (translate_single_result_spec self result target_fields format warnings Hty)
      as (tr & -> & Hl).
    destruct (IH (results ++ [tr])
                 (warnings ++ field_warnings self result
                    match target_fields with PList names => names | _ => [] end))
      as (trs & -> & Hall).
    exists (tr :: trs). split.
    + rewrite <- !app_assoc. reflexivity.
    + constructor; assumption.
Qed.

(** C5. Translating a response never fails on a field: given that the
    adapter's two accessors return, the response is returned with one
    translated object per raw result; each object holds the requested
    fields that translate and lacks the others, each failing field adds one
    warning, and when no field is requested (the parameter is unset, [None]
    or the empty list) every object is empty and no warning is added. *)
Theorem C5_partial_results self response0 common_search_params format warnings raw n :
  get_results_list_from_response self response0 = OK raw →
  get_num_results_from_response self response0 = OK n →
  (∀ k, get_fields common_search_params ≠ PInt k) →
  let names := requested_fields common_search_params in
  ∃ results,
    format_search_response self response0 common_search_params format warnings =
      (OK {| num_results := n; results_list := results |},
       warnings ++ flat_map (λ result, field_warnings self result names) raw) ∧
    Forall2 (λ result translated_result, ∀ name,
      translated_result !! name =
        if bool_decide (name ∈ names) then field_value self result name else None)
      raw results ∧
    (names = [] →
       results = replicate (length raw) ∅ ∧
       flat_map (λ result, field_warnings self result names) raw = []).
Proof.
  intros Hraw Hnum Hty names. unfold format_search_response. rewrite Hraw.
  destruct (translate_results_spec self (get_fields common_search_params) format raw Hty
              [] warnings) as (trs & -> & Hall).
  rewrite Hnum. exists trs. split; [reflexivity|]. split; [exact Hall|].
  fold (requested_fields common_search_params) in Hall. fold names in Hall.
  intros Hnil. rewrite Hnil in *. clear Hnil. split.
  - clear -Hall. induction Hall as [|result tr raw trs Hl _ IH]; [reflexivity|].
    simpl. f_equal; [|exact IH].
    apply map_eq. intros name. rewrite Hl, lookup_empty. reflexivity.
  - clear. induction raw; [reflexivity | assumption].
Qed.

End ResponseTranslation.

Lemma C5_partial_results_witness :
  ∃ results,
    format_search_response (env := sample_env) sample_service
      [ {[ "identifier" := VInt 7; "title" := VStr "t" ]}; {[ "title" := VStr "u" ]} ]
      {[ "fields" := PList ["id"; "name"; "license"] ]} VNone [] =
      (OK {| num_results := 2; results_list := results |},
       [ "Can't return unsupported field license";
         "Can't return unsupported field id";
         "Can't return unsupported field license" ]) ∧
    results !! 0%nat = Some {[ "id" := VInt 7; "name" := VStr "t" ]} ∧
    results !! 1%nat = Some {[ "name" := VStr "u" ]}.
Proof.
  destruct (C5_partial_results (env := sample_env) sample_service
              [ {[ "identifier" := VInt 7; "title" := VStr "t" ]}; {[ "title" := VStr "u" ]} ]
              {[ "fields" := PList ["id"; "name"; "license"] ]} VNone []
              [ {[ "identifier" := VInt 7; "title" := VStr "t" ]}; {[ "title" := VStr "u" ]} ]
              2 eq_refl eq_refl) as (results & Heq & _).
  { intros k. vm_compute. discriminate. }
  exists results. split; [exact Heq|].
  vm_compute in Heq. injection Heq as <-. split; vm_compute; reflexivity.
Defined.

Section SortingCriteria.
Context `{env : environment} {response : Type}.
Implicit Types (self : service (response := response)).

Lemma probe_ext self option desc supported_criteria entry k k' :
  (∀ l, k l = k' l) →
  probe self option desc supported_criteria entry k =
  probe self option desc supported_criteria entry k'.
Proof.
  intros Hk. unfold probe.
  destruct (process_s_query_parameter self option desc true) as [?|e]; [apply Hk|].
  destruct (isinstance e "ACException"); [apply Hk | reflexivity].
Qed.

Lemma sorting_criteria_loop_probes self options :
  ∀ supported_criteria,
  sorting_criteria_loop self options supported_criteria =
  run_probes self (probes options) supported_criteria.
Proof.
  induction options as [|option rest IH]; intros acc; [reflexivity|].
  cbn [sorting_criteria_loop probes flat_map app run_probes fst snd criterion].
  apply probe_ext. intros l. apply probe_ext. exact (IH).
Qed.

Lemma run_probes_quiet self ps :
  Forall (quiet self) ps →
  ∀ supported_criteria,
  run_probes self ps supported_criteria =
  OK (supported_criteria ++ flat_map (supported self) ps).
Proof.
  induction 1 as [|p rest Hq _ IH]; intros acc.
  - simpl. by rewrite app_nil_r.
  - cbn [run_probes flat_map]. unfold probe, supported at 1. unfold quiet in Hq.
    destruct (process_s_query_parameter self p.1 p.2 true) as [?|e].
    + rewrite IH, <- app_assoc. reflexivity.
    + rewrite Hq, IH. reflexivity.
Qed.

Lemma run_probes_not_implemented self before p after :
  Forall (λ q, quiet self q ∨ not_implemented self q) before →
  not_implemented self p →
  ∀ supported_criteria,
  run_probes self (before ++ p :: after) supported_criteria = OK [].
Proof.
  intros Hb (e & He & Hac & Hni). induction Hb as [|q rest Hq _ IH]; intros acc.
  - cbn [app run_probes]. unfold probe. rewrite He, Hac, Hni. reflexivity.
  - cbn [app run_probes]. unfold probe.
    destruct Hq as [Hq | (e' & He' & Hac' & Hni')].
    + unfold quiet in Hq.
      destruct (process_s_query_parameter self q.1 q.2 true) as [?|e'].
      * apply IH.
      * rewrite Hq. apply IH.
    + rewrite He', Hac', Hni'. reflexivity.
Qed.

(** C8. [get_supported_sorting_criteria] probes every sort option, first
    descending then ascending, with [raise_exception_if_unsupported] set.
    When every probe returns or raises [ACException], the result lists, in
    probe order, the probes that returned: the option itself for the
    ascending probe and the option behind a "-" for the descending one.
    When a probe raises [NotImplementedError], and no probe before it
    raised anything but [ACException] or [NotImplementedError], the result
    is the empty list, whatever had been collected. *)
Theorem C8_supported_sorting_criteria self :
  (Forall (quiet self) (probes SORT_OPTIONS) →
   get_supported_sorting_criteria self =
     OK (flat_map (supported self) (probes SORT_OPTIONS))) ∧
  (∀ before p after,
     probes SORT_OPTIONS = before ++ p :: after →
     Forall (λ q, quiet self q ∨ not_implemented self q) before →
     not_implemented self p →
     get_supported_sorting_criteria self = OK []).
Proof.
  unfold get_supported_sorting_criteria. rewrite sorting_criteria_loop_probes. split.
  - intros Hq. by rewrite (run_probes_quiet _ _ Hq).
  - intros before p after -> Hb Hp. by apply run_probes_not_implemented.
Qed.

End SortingCriteria.

Lemma C8_supported_sorting_criteria_witness :
  get_supported_sorting_criteria (env := sample_env) sample_service =
    OK ["-relevance"; "relevance"; "-duration"] ∧
  get_supported_sorting_criteria (env := sample_env) partial_service = OK [].
Proof.
  split.
  - apply (proj1 (C8_supported_sorting_criteria (env := sample_env) sample_service)).
    repeat constructor.
  - apply (proj2 (C8_supported_sorting_criteria (env := sample_env) partial_service)
             [("relevance", true); ("relevance", false)] ("popularity", true)
             [("popularity", false); ("duration", true); ("duration", false)]).
    + reflexivity.
    + repeat constructor; left; exact I.
    + exists (NotImplementedError "Parameter 's' not supported"). repeat split.
Defined.

Section FilterRendering.
Context `{env : environment} {response : Type}.
Implicit Types (self : service (response := response)) (elm : pyval).

(** Induction on values that reaches the items of tuples and parse results. *)
Lemma pyval_nested_ind (P : pyval → Prop) :
  P VNone → (∀ n, P (VInt n)) → (∀ x, P (VFloat x)) → (∀ s, P (VStr s)) →
  (∀ items, Forall P items → P (VTuple items)) →
  (∀ items, Forall P items → P (VParse items)) →
  ∀ v, P v.
Proof.
  intros HN HI HF HS HT HP. fix IH 1. intros [| n | x | s | items | items].
  - exact HN.
  - apply HI.
  - apply HF.
  - apply HS.
  - apply HT. induction items as [|v items IHitems]; constructor; [apply IH | exact IHitems].
  - apply HP. induction items as [|v items IHitems]; constructor; [apply IH | exact IHitems].
Qed.

(** The defining equation of [process_filter_element], with the loop of the
    group branch by its name. *)
Lemma process_filter_element_eq self elm filter_list :
  process_filter_element self elm filter_list =
    (term ← is_filter_term elm;
     if term : bool then process_term self elm filter_list
     else if is_operator elm then process_operator self elm filter_list
     else
       match elm with
       | VParse items =>
           let filter_list :=
             if negb (is_not_structure elm) then filter_list ++ [VStr "("] else filter_list in
           filter_list ← process_items self items filter_list;
           OK (if negb (is_not_structure elm) then filter_list ++ [VStr ")"] else filter_list)
       | _ => Raise (ACFilterParsingException "")
       end).
Proof.
  destruct elm as [| n | x | s | items | items]; try reflexivity.
  cbn [process_filter_element].
  destruct (is_filter_term (VParse items)) as [[|]|]; try reflexivity.
  cbn [mbind outcome_bind is_operator].
  generalize (if negb (is_not_structure (VParse items))
              then filter_list ++ [VStr "("] else filter_list).
  intros l. f_equal. revert l.
  induction items as [|item rest IH]; intros l; [reflexivity|].
  cbn [process_items]. destruct (process_filter_element self item l); cbn; [apply IH | reflexivity].
Qed.

(** The calls only append to [filter_list]: what they add is what they
    add to the empty list. *)
Lemma process_term_app self elm filter_list :
  process_term self elm filter_list =
    (out ← process_term self elm []; OK (filter_list ++ out)).
Proof.
  unfold process_term.
  destruct (py_getitem elm 0) as [fkey|]; [|reflexivity].
  destruct (py_getitem elm 2) as [fvalue|]; [|reflexivity].
  cbn [mbind outcome_bind].
  destruct (translate_term self fkey fvalue) as [[key value]|]; [|reflexivity].
  cbn [mbind outcome_bind].
  destruct (render_filter_term_kwargs self key value); reflexivity.
Qed.

Lemma process_operator_app self elm filter_list :
  process_operator self elm filter_list =
    (out ← process_operator self elm []; OK (filter_list ++ out)).
Proof.
  unfold process_operator.
  destruct (py_upper elm) as [operator|]; [|reflexivity].
  cbn [mbind outcome_bind].
  destruct (render_operator_term self operator); reflexivity.
Qed.

Lemma process_items_app_of self items :
  Forall (λ elm, ∀ filter_list,
    process_filter_element self elm filter_list =
      (out ← process_filter_element self elm []; OK (filter_list ++ out))) items →
  ∀ filter_list,
    process_items self items filter_list =
      (out ← process_items self items []; OK (filter_list ++ out)).
Proof.
  induction 1 as [|item rest Hitem _ IH]; intros filter_list.
  - cbn. by rewrite app_nil_r.
  - cbn [process_items]. rewrite (Hitem filter_list).
    destruct (process_filter_element self item []) as [a|]; [|reflexivity].
    cbn [mbind outcome_bind]. rewrite (IH (filter_list ++ a)), (IH a).
    destruct (process_items self rest []) as [b|]; [|reflexivity].
    cbn [mbind outcome_bind]. by rewrite app_assoc.
Qed.

Lemma process_filter_element_app self elm :
  ∀ filter_list,
    process_filter_element self elm filter_list =
      (out ← process_filter_element self elm []; OK (filter_list ++ out)).
Proof.
  induction elm as [| n | x | s | items IH | items IH] using pyval_nested_ind;
    intros filter_list; rewrite !process_filter_element_eq.
  1-5: destruct (is_filter_term _) as [[|]|]; cbn [mbind outcome_bind];
         [apply process_term_app | | reflexivity];
         destruct (is_operator _); [apply process_operator_app | reflexivity].
  destruct (is_filter_term _) as [[|]|]; cbn [mbind outcome_bind];
    [apply process_term_app | | reflexivity].
  destruct (is_operator _); [apply process_operator_app|].
  pose proof (process_items_app_of self items IH) as Happ.
  destruct (is_not_structure (VParse items)); cbn [negb].
  - rewrite (Happ filter_list).
    destruct (process_items self items []); reflexivity.
  - rewrite (Happ (filter_list ++ [VStr "("])), (Happ ([] ++ [VStr "("])).
    destruct (process_items self items []) as [body|]; [|reflexivity].
    cbn [mbind outcome_bind]. by rewrite <- !app_assoc.
Qed.

Lemma process_items_app self items filter_list :
  process_items self items filter_list =
    (out ← process_items self items []; OK (filter_list ++ out)).
Proof.
  apply process_items_app_of, Forall_forall. intros elm _. apply process_filter_element_app.
Qed.

(** A parse result is never an operator, and whether it is a filter term is
    always decided. *)
Lemma is_filter_term_VParse items :
  is_filter_term (VParse items) =
    OK (match items with [_; x; _] => py_eq_str x ":" | _ => false end).
Proof. destruct items as [|a [|b [|c [|d l]]]]; reflexivity. Qed.

(** C4. A group that is not of the form of a filter term renders as its
    children, left to right, between an opening and a closing parenthesis,
    and as its children alone when it is a NOT group, one whose first
    element is the operator NOT in any letter case. *)
Theorem C4_group_rendering self items filter_list :
  is_filter_term (VParse items) = OK false →
  process_filter_element self (VParse items) filter_list =
    (body ← process_items self items [];
     OK (filter_list ++
           if is_not_structure (VParse items) then body
           else [VStr "("] ++ body ++ [VStr ")"])) ∧
  (∀ item rest,
     process_items self (item :: rest) [] =
       (first ← process_filter_element self item [];
        others ← process_items self rest [];
        OK (first ++ others))) ∧
  is_not_structure (VParse items) =
    match items with
    | VStr s :: _ => String.eqb (upper s) "NOT"
    | _ => false
    end.
Proof.
  intros Hterm. split; [|split]; [| |by destruct items as [|[] ?]].
  - rewrite process_filter_element_eq, Hterm. cbn [mbind outcome_bind is_operator].
    destruct (is_not_structure (VParse items)); cbn [negb].
    + rewrite process_items_app.
      destruct (process_items self items []) as [body|]; reflexivity.
    + rewrite process_items_app.
      destruct (process_items self items []) as [body|]; [|reflexivity].
      cbn [mbind outcome_bind]. by rewrite <- !app_assoc.
  - intros item rest. cbn [process_items].
    destruct (process_filter_element self item []) as [a|]; [|reflexivity].
    cbn [mbind outcome_bind]. apply process_items_app.
Qed.

(** C1, as the code has it. A filter term with a range value translates
    its two bounds one after the other, each by its own call of
    [translate_filter], and renders the pair of translated values as a
    range under the key returned for the low bound; the key returned for
    the high bound is dropped without being looked at. *)
Theorem C1_range_translation self fkey lo hi filter_list :
  process_filter_element self (VParse [fkey; VStr ":"; VParse [lo; hi]]) filter_list =
    ('(key, value1) ← translate_filter self fkey lo;
     '(_, value2) ← translate_filter self fkey hi;
     rendered ← render_filter_term self key VNone VNone (VTuple [value1; value2]);
     OK (filter_list ++ [rendered])).
Proof.
  rewrite process_filter_element_eq.
  cbn [is_filter_term py_len length Nat.eqb py_getitem lookup list_lookup py_eq_str
       String.eqb Ascii.eqb Bool.eqb mbind outcome_bind].
  unfold process_term, translate_term.
  cbn [py_getitem lookup list_lookup is_range length Nat.eqb mbind outcome_bind].
  destruct (translate_filter self fkey lo) as [[key value1]|]; [|reflexivity].
  cbn [mbind outcome_bind].
  destruct (translate_filter self fkey hi) as [[key2 value2]|]; reflexivity.
Qed.

Lemma py_eq_str_true v s : py_eq_str v s = true ↔ v = VStr s.
Proof.
  destruct v; simpl; try (split; [discriminate | intros [=]]).
  rewrite String.eqb_eq. split; [by intros -> | by intros [= ->]].
Qed.

Lemma slice_1_m1_enclosed {A} (x y : A) (l : list A) : slice_1_m1 ([x] ++ l ++ [y]) = l.
Proof. unfold slice_1_m1. cbn [app tail]. apply removelast_last. Qed.

(** A node of the form of a filter term renders as a single token. *)
Lemma process_term_singleton self elm out :
  process_term self elm [] = OK out → ∃ rendered, out = [rendered].
Proof.
  unfold process_term.
  destruct (py_getitem elm 0) as [fkey|]; [|discriminate].
  destruct (py_getitem elm 2) as [fvalue|]; [|discriminate].
  cbn [mbind outcome_bind].
  destruct (translate_term self fkey fvalue) as [[key value]|]; [|discriminate].
  cbn [mbind outcome_bind].
  destruct (render_filter_term_kwargs self key value) as [rendered|]; [|discriminate].
  intros [= <-]. by exists rendered.
Qed.

(** When the root of the parsed filter is a group that renders its own
    parentheses, the token list starts and ends with that pair, and
    [build_filter_string] joins the tokens of the children only: the one
    outermost pair is removed and every parenthesis of an inner group
    stays. *)
Lemma build_filter_string_group_root self filter_input_value parsed items body :
  parse_filter filter_input_value = OK parsed →
  py_getitem parsed 0 = OK (VParse items) →
  is_filter_term (VParse items) = OK false →
  is_not_structure (VParse items) = false →
  process_items self items [] = OK body →
  process_filter_element self (VParse items) [] = OK ([VStr "("] ++ body ++ [VStr ")"]) ∧
  build_filter_string self filter_input_value = join body ∧
  (∀ term,
     items = [term] →
     build_filter_string self filter_input_value =
       (out ← process_filter_element self term []; join out) ∧
     (∀ filter_input_value' parsed',
        is_filter_term term = OK true →
        body ≠ [VStr "("] →
        parse_filter filter_input_value' = OK parsed' →
        py_getitem parsed' 0 = OK term →
        build_filter_string self filter_input_value' =
        build_filter_string self filter_input_value)).
Proof.
  intros Hparse Hroot Hterm Hnot Hbody.
  assert (process_filter_element self (VParse items) [] =
            OK ([VStr "("] ++ body ++ [VStr ")"])) as Hout.
  { rewrite process_filter_element_eq, Hterm.
    cbn [mbind outcome_bind is_operator]. rewrite Hnot. cbn [negb app].
    rewrite process_items_app, Hbody. reflexivity. }
  assert (build_filter_string self filter_input_value = join body) as Hbuild.
  { unfold build_filter_string. rewrite Hparse. cbn [mbind outcome_bind].
    rewrite Hroot. cbn [mbind outcome_bind]. rewrite Hout. cbn [mbind outcome_bind].
    cbn [list_getitem app lookup list_lookup py_eq_str String.eqb Ascii.eqb Bool.eqb].
    cbn [mbind outcome_bind].
    change (VStr "(" :: body ++ [VStr ")"]) with ([VStr "("] ++ body ++ [VStr ")"]).
    by rewrite slice_1_m1_enclosed. }
  split; [exact Hout|]. split; [exact Hbuild|].
  intros term ->. rewrite Hbuild. cbn [process_items] in Hbody.
  destruct (process_filter_element self term []) as [out|] eqn:Hproc; [|discriminate].
  cbn [mbind outcome_bind] in Hbody. injection Hbody as ->.
  split; [reflexivity|].
  intros s' parsed' Hterm' Hne Hparse' Hroot'.
  unfold build_filter_string.
  rewrite Hparse'. cbn [mbind outcome_bind]. rewrite Hroot'. cbn [mbind outcome_bind].
  rewrite Hproc. cbn [mbind outcome_bind].
  rewrite process_filter_element_eq, Hterm' in Hproc. cbn [mbind outcome_bind] in Hproc.
  destruct (process_term_singleton _ _ _ Hproc) as [rendered ->].
  cbn [list_getitem lookup list_lookup mbind outcome_bind].
  destruct (py_eq_str rendered "(") eqn:Heq; [|reflexivity].
  apply py_eq_str_true in Heq. by subst.
Qed.

(** The operators are not of the form of a filter term. *)
Lemma is_operator_not_term elm : is_operator elm = true → is_filter_term elm = OK false.
Proof.
  destruct elm as [| | | s | |]; try discriminate. cbn [is_operator].
  intros H. apply bool_decide_eq_true in H.
  destruct s as [|c0 [|c1 [|c2 [|c3 s]]]]; try reflexivity.
  assert (c1 ≠ ":"%char) as Hc.
  { intros ->. repeat (apply elem_of_cons in H as [H|H]); try discriminate H.
    by apply elem_of_nil in H. }
  cbn. destruct (Ascii.eqb_spec c1 ":"); [contradiction | reflexivity].
Qed.

(** C9. The bodies the mixin gives to [render_filter_term] and
    [render_operator_term] return [None] on every call, without raising;
    with an adapter that keeps them, [None] is the token a filter term and
    an operator add to the rendered list. *)
Theorem C9_default_renderers_return_None :
  (∀ key value_text value_number value_range,
     default_render_filter_term key value_text value_number value_range = OK VNone) ∧
  (∀ operator, default_render_operator_term operator = OK VNone) ∧
  (∀ self elm filter_list fkey fvalue key value,
     render_filter_term self = default_render_filter_term →
     is_filter_term elm = OK true →
     py_getitem elm 0 = OK fkey →
     py_getitem elm 2 = OK fvalue →
     translate_term self fkey fvalue = OK (key, value) →
     process_filter_element self elm filter_list = OK (filter_list ++ [VNone])) ∧
  (∀ self elm filter_list,
     render_operator_term self = default_render_operator_term →
     is_operator elm = true →
     process_filter_element self elm filter_list = OK (filter_list ++ [VNone])).
Proof.
  split; [reflexivity|]. split; [reflexivity|]. split.
  - intros self elm filter_list fkey fvalue key value Hdef Hterm H0 H2 Htr.
    rewrite process_filter_element_eq, Hterm. cbn [mbind outcome_bind].
    unfold process_term. rewrite H0, H2. cbn [mbind outcome_bind].
    rewrite Htr. cbn [mbind outcome_bind].
    unfold render_filter_term_kwargs. rewrite Hdef.
    by destruct value as [| | | | [|? [|? [|? ?]]] |].
  - intros self elm filter_list Hdef Hop.
    rewrite process_filter_element_eq, (is_operator_not_term _ Hop), Hop.
    cbn [mbind outcome_bind]. unfold process_operator. rewrite Hdef.
    destruct elm; try discriminate. reflexivity.
Qed.

(** A root that is a NOT group renders no parenthesis of its own, and its
    first token is the rendered operator: nothing is removed from the
    token list as long as that token is not the lone "(". *)
Lemma build_filter_string_NOT_root self filter_input_value parsed items body :
  parse_filter filter_input_value = OK parsed →
  py_getitem parsed 0 = OK (VParse items) →
  is_filter_term (VParse items) = OK false →
  is_not_structure (VParse items) = true →
  process_items self items [] = OK body →
  head body ≠ Some (VStr "(") →
  process_filter_element self (VParse items) [] = OK body ∧
  build_filter_string self filter_input_value = join body.
Proof.
  intros Hparse Hroot Hterm Hnot Hbody Hhead.
  assert (process_filter_element self (VParse items) [] = OK body) as Hout.
  { rewrite process_filter_element_eq, Hterm.
    cbn [mbind outcome_bind is_operator]. rewrite Hnot. cbn [negb].
    rewrite Hbody. reflexivity. }
  split; [exact Hout|].
  unfold build_filter_string. rewrite Hparse. cbn [mbind outcome_bind].
  rewrite Hroot. cbn [mbind outcome_bind]. rewrite Hout. cbn [mbind outcome_bind].
  destruct body as [|first rest].
  - (* the operator NOT at the head of the group renders as one token *)
    exfalso. destruct items as [|[| | | s | |] rest]; try discriminate Hnot.
    cbn [process_items] in Hbody.
    assert (is_operator (VStr s) = true) as Hop.
    { cbn in Hnot. apply String.eqb_eq in Hnot. cbn [is_operator]. rewrite Hnot.
      apply bool_decide_eq_true. set_solver. }
    rewrite process_filter_element_eq, (is_operator_not_term _ Hop), Hop in Hbody.
    cbn [mbind outcome_bind] in Hbody. unfold process_operator in Hbody.
    cbn [py_upper mbind outcome_bind] in Hbody.
    destruct (render_operator_term self (upper s)) as [r|]; [|discriminate].
    cbn [mbind outcome_bind] in Hbody. rewrite process_items_app in Hbody.
    destruct (process_items self rest []); discriminate.
  - cbn [list_getitem lookup list_lookup mbind outcome_bind].
    destruct (py_eq_str first "(") eqn:Heq; [|reflexivity].
    apply py_eq_str_true in Heq. subst. by destruct Hhead.
Qed.

End FilterRendering.

Lemma C4_group_rendering_witness :
  process_filter_element (env := sample_env) sample_service sample_nested [] =
    OK [VStr "("; VStr "("; VStr "a=1"; VStr " OR "; VStr "b=2"; VStr ")";
        VStr " AND "; VStr " NOT "; VStr "c=3"; VStr ")"] ∧
  build_filter_string (env := sample_env) sample_service "(a:1 OR b:2) AND NOT c:3" =
    OK "(a=1 OR b=2) AND  NOT c=3".
Proof.
  split; [|vm_compute; reflexivity].
  refine (eq_trans (proj1 (C4_group_rendering (env := sample_env) sample_service
    [VParse [sample_term "a" "1"; VStr "OR"; sample_term "b" "2"];
     VStr "AND";
     VParse [VStr "NOT"; sample_term "c" "3"]] [] eq_refl)) _).
  vm_compute. reflexivity.
Defined.

(** The two bounds of [dur:[1,5]] translate to different provider keys and
    the term is rendered all the same, under the key of the low bound. *)
Lemma C1_counterexample :
  ¬ (∀ key1 value1 key2 value2,
       translate_filter (env := sample_env) sample_service (VStr "dur") (VStr "1")
         = OK (key1, value1) →
       translate_filter (env := sample_env) sample_service (VStr "dur") (VStr "5")
         = OK (key2, value2) →
       key1 ≠ key2 →
       ∃ e, process_filter_element (env := sample_env) sample_service
              (sample_range "dur" "1" "5") [] = Raise e).
Proof.
  intros H.
  destruct (H "min_duration" (VStr "1") "max_duration" (VStr "5") eq_refl eq_refl)
    as [e He]; [discriminate|].
  vm_compute in He. discriminate He.
Qed.

Lemma C9_default_renderers_return_None_witness :
  process_filter_element (env := sample_env) partial_service (sample_term "a" "1") [VStr "x"] =
    OK [VStr "x"; VNone] ∧
  process_filter_element (env := sample_env) partial_service (VStr "and") [VStr "x"] =
    OK [VStr "x"; VNone].
Proof.
  destruct (C9_default_renderers_return_None (env := sample_env)
              (response := list (gmap string pyval))) as (_ & _ & Hterm & Hop).
  split.
  - apply (Hterm partial_service (sample_term "a" "1") [VStr "x"]
             (VStr "a") (VStr "1") "a" (VStr "1")); reflexivity.
  - apply (Hop partial_service (VStr "and") [VStr "x"]); reflexivity.
Defined.

(** * Further properties of the mixins *)

Section SupportedFields.
Context `{env : environment} {response : Type}.
Implicit Types (self : service (response := response)) (result : gmap string pyval).

Lemma elem_of_keys {A} (d : gmap string A) (k : string) : k ∈ keys d ↔ is_Some (d !! k).
Proof.
  unfold keys. rewrite list_elem_of_fmap. split.
  - intros ([k' v] & -> & Hin). apply elem_of_map_to_list in Hin. by exists v.
  - intros [v Hv]. exists (k, v). split; [reflexivity | by apply elem_of_map_to_list].
Qed.

Lemma NoDup_keys {A} (d : gmap string A) : NoDup (keys d).
Proof. apply NoDup_fst_map_to_list. Qed.

(** X1. [translate_field] returns a value in two cases only: the field is
    in the direct mapping and the mapped key is in the result, or the field
    is not in the direct mapping and its registered method returns that
    value.  Whatever it raises is an [ACFieldTranslateException]. *)
Theorem X1_translate_field_returns self ac_field_name result :
  (∀ v, translate_field self ac_field_name result = OK v ↔
     (∃ key, direct_fields_mapping self !! ac_field_name = Some key ∧
             result !! key = Some v) ∨
     (direct_fields_mapping self !! ac_field_name = None ∧
      ∃ registry method,
        translate_field_methods_registry self = Some registry ∧
        registry !! ac_field_name = Some method ∧
        method result = OK v)) ∧
  (∀ e, translate_field self ac_field_name result = Raise e →
     exn_name e = "ACFieldTranslateException").
Proof.
  split; [|intros e; apply translate_field_raises].
  intros v. unfold translate_field, dict_getitem.
  destruct (direct_fields_mapping self !! ac_field_name) as [key|] eqn:Hd.
  - destruct (result !! key) as [v'|] eqn:Hk; cbn.
    + split.
      * intros [= ->]. left. by exists key.
      * intros [(key' & [= <-] & Hk') | [[=] _]]. congruence.
    + split; [discriminate|].
      intros [(key' & [= <-] & Hk') | [[=] _]]. congruence.
  - destruct (translate_field_methods_registry self) as [registry|] eqn:Hreg; cbn.
    + destruct (registry !! ac_field_name) as [method|] eqn:Hm; cbn.
      * destruct (method result) as [v'|e] eqn:Hr; cbn.
        -- split.
           ++ intros [= ->]. right. split; [reflexivity|]. by exists registry, method.
           ++ intros [(key & [=] & _) | [_ (registry' & method' & [= <-] & Hm' & Hr')]].
              rewrite Hm in Hm'. injection Hm' as <-. congruence.
        -- split; [discriminate|].
           intros [(key & [=] & _) | [_ (registry' & method' & [= <-] & Hm' & Hr')]].
           rewrite Hm in Hm'. injection Hm' as <-. congruence.
      * split; [discriminate|].
        intros [(key & [=] & _) | [_ (registry' & method' & [= <-] & Hm' & _)]].
        congruence.
    + split; [discriminate|].
      by intros [(key & [=] & _) | [_ (registry' & method' & [=] & _)]].
Qed.

(** X2. The list [get_supported_fields] returns names exactly the fields of
    the direct mapping and of the registry; a field outside it fails to
    translate on every result as an unexpected field, a field that
    translates on some result is in it, and the list repeats a name exactly
    when a field has both a direct mapping and a translate method. *)
Theorem X2_supported_fields self fields :
  get_supported_fields self = OK fields →
  (∀ name, name ∈ fields ↔
     is_Some (direct_fields_mapping self !! name) ∨
     ∃ registry, translate_field_methods_registry self = Some registry ∧
                 is_Some (registry !! name)) ∧
  (∀ name result, name ∉ fields →
     translate_field self name result =
       Raise (ACFieldTranslateException
         ("Can't translate field '" +:+ name +:+ "' (unexpected field)"))) ∧
  (∀ name result v, translate_field self name result = OK v → name ∈ fields) ∧
  (NoDup fields ↔
     ∀ name registry,
       translate_field_methods_registry self = Some registry →
       is_Some (direct_fields_mapping self !! name) →
       registry !! name = None).
Proof.
  unfold get_supported_fields.
  destruct (translate_field_methods_registry self) as [registry|] eqn:Hreg; [|discriminate].
  intros [= <-].
  assert (∀ name, name ∈ keys (direct_fields_mapping self) ++ keys registry ↔
            is_Some (direct_fields_mapping self !! name) ∨
            ∃ registry', Some registry = Some registry' ∧ is_Some (registry' !! name)) as Hin.
  { intros name. rewrite elem_of_app, !elem_of_keys. split.
    - intros [H|H]; [by left | right; by exists registry].
    - intros [H | (registry' & [= <-] & H)]; [by left | by right]. }
  split; [exact Hin|]. split; [|split].
  - intros name result Hnot. unfold translate_field. rewrite Hreg.
    destruct (direct_fields_mapping self !! name) as [key|] eqn:Hd.
    { destruct Hnot. apply Hin. left. by exists key. }
    destruct (registry !! name) as [method|] eqn:Hm; [|reflexivity].
    destruct Hnot. apply Hin. right. exists registry. split; [reflexivity | by exists method].
  - intros name result v Hv. apply Hin. unfold translate_field in Hv. rewrite Hreg in Hv.
    destruct (direct_fields_mapping self !! name) as [key|]; [left; by exists key|].
    destruct (registry !! name) as [method|] eqn:Hm; [|discriminate].
    right. exists registry. split; [reflexivity | by exists method].
  - rewrite NoDup_app. split.
    + intros (_ & Hdisj & _) name registry' [= <-] Hd.
      destruct (registry !! name) as [method|] eqn:Hm; [|reflexivity].
      destruct (Hdisj name); [by apply elem_of_keys | apply elem_of_keys; by exists method].
    + intros H. split; [apply NoDup_keys|]. split; [|apply NoDup_keys].
      intros name Hd Hr. apply elem_of_keys in Hd, Hr.
      rewrite (H name registry eq_refl Hd) in Hr. by destruct Hr.
Qed.

(** X5. A filter field outside the list [get_supported_filters] returns is
    refused by [translate_filter] as not supported, whatever the value, and
    a field whose filter translates for some value is in the list. *)
Theorem X5_supported_filters self fields :
  get_supported_filters self = OK fields →
  (∀ name value, name ∉ fields →
     translate_filter self (VStr name) value =
       Raise (ACFilterParsingException
         ("Filter for field '" +:+ name +:+ "' not supported"))) ∧
  (∀ name value r, translate_filter self (VStr name) value = OK r → name ∈ fields).
Proof.
  unfold get_supported_filters.
  destruct (translate_filter_methods_registry self) as [registry|] eqn:Hreg; [|discriminate].
  intros [= <-]. split.
  - intros name value Hnot. rewrite elem_of_app, !elem_of_keys in Hnot.
    apply (translate_filter_no_entry self name value registry); [|exact Hreg|].
    + destruct (direct_filters_mapping self !! name) eqn:Hd; [|reflexivity].
      destruct Hnot. left. eauto.
    + destruct (registry !! name) eqn:Hm; [|reflexivity].
      destruct Hnot. right. eauto.
  - intros name value r Hr. rewrite elem_of_app, !elem_of_keys.
    destruct (direct_filters_mapping self !! name) as [key|] eqn:Hd; [left; eauto|].
    destruct (registry !! name) as [method|] eqn:Hm; [right; eauto|].
    rewrite (translate_filter_no_entry self name value registry Hd Hreg Hm) in Hr.
    discriminate.
Qed.

End SupportedFields.

Lemma X2_supported_fields_witness :
  (∀ result, translate_field (env := sample_env) sample_service "duration" result =
     Raise (ACFieldTranslateException "Can't translate field 'duration' (unexpected field)")) ∧
  "id" ∈ [ "url"; "id"; "id"; "name"; "license" ] ∧
  ¬ NoDup [ "url"; "id"; "id"; "name"; "license" ].
Proof.
  destruct (X2_supported_fields (env := sample_env) sample_service
              [ "url"; "id"; "id"; "name"; "license" ] eq_refl)
    as (_ & Hout & Hin & Hdup).
  split; [|split].
  - intros result. apply (Hout "duration" result).
    vm_compute. intros H. repeat (apply elem_of_cons in H as [H|H]; [discriminate H|]).
    by apply elem_of_nil in H.
  - apply (Hin "id" {[ "identifier" := VInt 7 ]} (VInt 7)). vm_compute. reflexivity.
  - intros Hnd.
    pose proof (proj1 Hdup Hnd "id" _ eq_refl (ex_intro _ "identifier" eq_refl)) as H.
    vm_compute in H. discriminate H.
Defined.

Lemma X5_supported_filters_witness :
  translate_filter (env := sample_env) sample_service (VStr "genre") (VStr "rock") =
    Raise (ACFilterParsingException "Filter for field 'genre' not supported") ∧
  "dur" ∈ [ "c"; "a"; "b"; "format"; "dur" ].
Proof.
  destruct (X5_supported_filters (env := sample_env) sample_service
              [ "c"; "a"; "b"; "format"; "dur" ] eq_refl) as (Hout & Hin).
  split.
  - apply (Hout "genre" (VStr "rock")).
    intros H. repeat (apply elem_of_cons in H as [H|H]; [discriminate H|]).
    by apply elem_of_nil in H.
  - apply (Hin "dur" (VStr "1") ("min_duration", VStr "1")). vm_compute. reflexivity.
Defined.

Section MoreFilterTranslation.
Context `{env : environment} {response : Type}.
Implicit Types (self : service (response := response)) (elm : pyval).

(** X3. A filter on a field of the direct filters mapping keeps its value
    and takes the mapped key, whatever the registry holds; a range on such
    a field is rendered under that key with its two bounds untouched. *)
Theorem X3_direct_filter self ac_field_name key :
  direct_filters_mapping self !! ac_field_name = Some key →
  (∀ value, translate_filter self (VStr ac_field_name) value = OK (key, value)) ∧
  (∀ lo hi filter_list,
     process_filter_element self
       (VParse [VStr ac_field_name; VStr ":"; VParse [lo; hi]]) filter_list =
       (rendered ← render_filter_term self key VNone VNone (VTuple [lo; hi]);
        OK (filter_list ++ [rendered]))).
Proof.
  intros Hd.
  assert (∀ value, translate_filter self (VStr ac_field_name) value = OK (key, value)) as H.
  { intros value. unfold translate_filter, dict_contains, dict_getitem_val, dict_getitem.
    rewrite Hd. rewrite bool_decide_eq_true_2 by eauto. reflexivity. }
  split; [exact H|].
  intros lo hi filter_list. rewrite process_filter_element_eq.
  cbn [is_filter_term py_len length Nat.eqb py_getitem lookup list_lookup py_eq_str
       String.eqb Ascii.eqb Bool.eqb mbind outcome_bind].
  unfold process_term, translate_term.
  cbn [py_getitem lookup list_lookup is_range length Nat.eqb mbind outcome_bind].
  rewrite !H. reflexivity.
Qed.

(** X4. When the translator of a filter field raises something other than
    [KeyError]: an [ACFilterParsingException] leaves [translate_filter] as
    it is, message included, and any other exception is replaced by an
    [ACFilterParsingException] whose message names the field, the class
    and the text of the original.  With a registry that was never built,
    every field outside the direct mapping fails in the second way on the
    [TypeError] of the lookup. *)
Theorem X4_filter_translator_raises self ac_field_name value :
  direct_filters_mapping self !! ac_field_name = None →
  (∀ registry method e,
     translate_filter_methods_registry self = Some registry →
     registry !! ac_field_name = Some method →
     method value = Raise e →
     isinstance e "KeyError" = false →
     translate_filter self (VStr ac_field_name) value =
       Raise (if isinstance e "ACFilterParsingException" then e
              else ACFilterParsingException
                     ("Unexpected error processing filter for field '" +:+ ac_field_name
                        +:+ "' (" +:+ exn_name e +:+ ": " +:+ exn_str e +:+ ")"))) ∧
  (translate_filter_methods_registry self = None →
     translate_filter self (VStr ac_field_name) value =
       Raise (ACFilterParsingException
                ("Unexpected error processing filter for field '" +:+ ac_field_name
                   +:+ "' (TypeError: 'NoneType' object is not subscriptable)"))).
Proof.
  intros Hd. split.
  - intros registry method e Hr Hm He Hk.
    rewrite (translate_filter_method _ _ _ _ _ Hd Hr Hm), He, Hk.
    by destruct (isinstance e "ACFilterParsingException").
  - intros Hr. unfold translate_filter, dict_contains. rewrite Hd, Hr.
    rewrite bool_decide_eq_false_2 by (intros [? [=]]). reflexivity.
Qed.

End MoreFilterTranslation.

Lemma X3_direct_filter_witness :
  (∀ value, translate_filter (env := sample_env) sample_service (VStr "a") value =
     OK ("a", value)) ∧
  process_filter_element (env := sample_env) sample_service (sample_range "a" "1" "5") [] =
    OK [VStr "a=[1 TO 5]"].
Proof.
  destruct (X3_direct_filter (env := sample_env) sample_service "a" "a" eq_refl)
    as [Hvalue Hrange].
  split; [exact Hvalue|].
  exact (Hrange (VStr "1") (VStr "5") []).
Defined.

Lemma X4_filter_translator_raises_witness :
  translate_filter (env := sample_env) strict_service (VStr "bpm") (VStr "fast") =
    Raise (ACFilterParsingException
      "Unexpected error processing filter for field 'bpm' (ValueError: not a number)") ∧
  translate_filter (env := sample_env) strict_service (VStr "license") (VStr "x") =
    Raise (ACFilterParsingException "Unknown license") ∧
  translate_filter (env := sample_env) unconfigured_service (VStr "genre") (VStr "rock") =
    Raise (ACFilterParsingException
      "Unexpected error processing filter for field 'genre' (TypeError: 'NoneType' object is not subscriptable)").
Proof.
  split; [|split].
  - exact (proj1 (X4_filter_translator_raises (env := sample_env) strict_service
                    "bpm" (VStr "fast") eq_refl)
             _ strict_filter_bpm (Exn "ValueError" [] "not a number")
             eq_refl eq_refl eq_refl eq_refl).
  - exact (proj1 (X4_filter_translator_raises (env := sample_env) strict_service
                    "license" (VStr "x") eq_refl)
             _ strict_filter_license (ACFilterParsingException "Unknown license")
             eq_refl eq_refl eq_refl eq_refl).
  - exact (proj2 (X4_filter_translator_raises (env := sample_env) unconfigured_service
                    "genre" (VStr "rock") eq_refl) eq_refl).
Defined.

Section RenderingInvariants.
Context `{env : environment} {response : Type}.
Implicit Types (self : service (response := response)) (elm : pyval).

Lemma filter_terms_eq elm :
  filter_terms elm =
    match is_filter_term elm with
    | OK true =>
        match py_getitem elm 0, py_getitem elm 2 with
        | OK fkey, OK fvalue => [(fkey, fvalue)]
        | _, _ => []
        end
    | OK false =>
        if is_operator elm then []
        else match elm with VParse items => flat_map filter_terms items | _ => [] end
    | Raise _ => []
    end.
Proof. destruct elm; reflexivity. Qed.

Lemma count_tokens_eq elm :
  count_tokens elm =
    match is_filter_term elm with
    | OK true => 1
    | OK false =>
        if is_operator elm then 1
        else
          match elm with
          | VParse items =>
              (if is_not_structure elm then 0 else 2) + sum_list_with count_tokens items
          | _ => 0
          end
    | Raise _ => 0
    end.
Proof. destruct elm; reflexivity. Qed.

(** A filter term that is rendered was translated. *)
Lemma process_term_translated self elm filter_list out :
  process_term self elm filter_list = OK out →
  ∃ fkey fvalue key value rendered,
    py_getitem elm 0 = OK fkey ∧ py_getitem elm 2 = OK fvalue ∧
    translate_term self fkey fvalue = OK (key, value) ∧
    render_filter_term_kwargs self key value = OK rendered ∧
    out = filter_list ++ [rendered].
Proof.
  unfold process_term.
  destruct (py_getitem elm 0) as [fkey|]; [|discriminate].
  destruct (py_getitem elm 2) as [fvalue|]; [|discriminate].
  cbn [mbind outcome_bind].
  destruct (translate_term self fkey fvalue) as [[key value]|] eqn:Htr; [|discriminate].
  cbn [mbind outcome_bind].
  destruct (render_filter_term_kwargs self key value) as [rendered|] eqn:Hr; [|discriminate].
  intros [= <-]. by exists fkey, fvalue, key, value, rendered.
Qed.

Lemma process_operator_rendered self elm filter_list out :
  process_operator self elm filter_list = OK out →
  ∃ operator rendered,
    py_upper elm = OK operator ∧ render_operator_term self operator = OK rendered ∧
    out = filter_list ++ [rendered].
Proof.
  unfold process_operator.
  destruct (py_upper elm) as [operator|]; [|discriminate]. cbn [mbind outcome_bind].
  destruct (render_operator_term self operator) as [rendered|] eqn:Hr; [|discriminate].
  intros [= <-]. by exists operator, rendered.
Qed.

(** What a successful group branch went through. *)
Lemma process_group_inv self items filter_list out :
  is_filter_term (VParse items) = OK false →
  process_filter_element self (VParse items) filter_list = OK out →
  ∃ body,
    process_items self items [] = OK body ∧
    out = filter_list ++
            if is_not_structure (VParse items) then body
            else [VStr "("] ++ body ++ [VStr ")"].
Proof.
  intros Hterm. rewrite process_filter_element_eq, Hterm.
  cbn [mbind outcome_bind is_operator].
  destruct (is_not_structure (VParse items)); cbn [negb];
    rewrite process_items_app;
    destruct (process_items self items []) as [body|] eqn:Hbody; try discriminate;
    cbn [mbind outcome_bind]; intros Hout; injection Hout as <-; exists body.
  - done.
  - by rewrite <- !app_assoc.
Qed.

Lemma process_items_inv self item rest out :
  process_items self (item :: rest) [] = OK out →
  ∃ first others,
    process_filter_element self item [] = OK first ∧
    process_items self rest [] = OK others ∧
    out = first ++ others.
Proof.
  cbn [process_items].
  destruct (process_filter_element self item []) as [first|] eqn:Hfirst; [|discriminate].
  cbn [mbind outcome_bind]. rewrite process_items_app.
  destruct (process_items self rest []) as [others|] eqn:Hothers; [|discriminate].
  intros [= <-]. by exists first, others.
Qed.


(** X7. The number of tokens a rendering adds depends on the tree alone,
    not on the adapter: one for each filter term and each operator, two
    for each group that is not a NOT group. *)
Theorem X7_token_count self elm :
  ∀ filter_list out,
  process_filter_element self elm filter_list = OK out →
  length out = length filter_list + count_tokens elm.
Proof.
  induction elm as [| n | x | s | items IH | items IH] using pyval_nested_ind;
    intros filter_list out Hout; rewrite count_tokens_eq;
    rewrite process_filter_element_eq in Hout;
    (destruct (is_filter_term _) as [[|]|] eqn:Hterm; [| |discriminate]);
    cbn [mbind outcome_bind] in Hout;
    try (apply process_term_translated in Hout
           as (fkey & fvalue & key & value & rendered & _ & _ & _ & _ & ->);
         by rewrite length_app);
    try (destruct (is_operator _); [|discriminate];
         apply process_operator_rendered in Hout as (operator & rendered & _ & _ & ->);
         by rewrite length_app).
  cbn [is_operator].
  assert (process_filter_element self (VParse items) filter_list = OK out) as Hgroup.
  { rewrite process_filter_element_eq, Hterm. exact Hout. }
  apply (process_group_inv _ _ _ _ Hterm) in Hgroup as (body & Hbody & ->).
  assert (length body = sum_list_with count_tokens items) as Hlen.
  { clear Hout Hterm. revert body Hbody.
    induction IH as [|item rest Hitem _ IHrest]; intros body Hbody.
    - by injection Hbody as <-.
    - apply process_items_inv in Hbody as (first & others & Hfirst & Hothers & ->).
      cbn [sum_list_with]. rewrite length_app, (Hitem _ _ Hfirst), (IHrest _ Hothers).
      reflexivity. }
  destruct (is_not_structure (VParse items)); rewrite !length_app, ?Hlen; cbn; lia.
Qed.

End RenderingInvariants.


Lemma X7_token_count_witness :
  length [VStr "("; VStr "("; VStr "a=1"; VStr " OR "; VStr "b=2"; VStr ")";
          VStr " AND "; VStr " NOT "; VStr "c=3"; VStr ")"] = 10%nat.
Proof.
  exact (X7_token_count (env := sample_env) sample_service sample_nested [] _ eq_refl).
Defined.

Section LeavesAndDefaults.
Context `{env : environment} {response : Type}.
Implicit Types (self : service (response := response)) (elm : pyval).

(** X8. What [process_filter_element] does with a node that is not a parse
    result.  [None] and a number raise [TypeError], from the [len] of the
    first test, before the branch that raises [ACFilterParsingException]
    is reached; a string that is no operator and not of the form [x:y]
    raises [ACFilterParsingException]; a string of three characters with a
    colon in the middle is taken for a filter term, its first character
    the field and its last the value. *)
Theorem X8_nodes_that_are_no_parse_result self filter_list :
  (∀ elm, elm = VNone ∨ (∃ n, elm = VInt n) ∨ (∃ x, elm = VFloat x) →
     ∃ e, process_filter_element self elm filter_list = Raise e ∧
          exn_name e = "TypeError") ∧
  (∀ s, is_operator (VStr s) = false →
        (∀ a b, s ≠ String a (String ":" (String b ""))) →
     process_filter_element self (VStr s) filter_list =
       Raise (ACFilterParsingException "")) ∧
  (∀ a b,
     process_filter_element self (VStr (String a (String ":" (String b "")))) filter_list =
       ('(key, value) ← translate_filter self (VStr (String a "")) (VStr (String b ""));
        rendered ← render_filter_term_kwargs self key value;
        OK (filter_list ++ [rendered]))).
Proof.
  split; [|split].
  - intros elm [-> | [[n ->] | [x ->]]]; eexists; (split; [reflexivity | reflexivity]).
  - intros s Hop Hshape. rewrite process_filter_element_eq, Hop.
    assert (is_filter_term (VStr s) = OK false) as ->; [|reflexivity].
    destruct s as [|a [|c [|b [|d s]]]]; try reflexivity.
    cbn. destruct (Ascii.eqb_spec c ":") as [->|]; [|reflexivity].
    by destruct (Hshape a b).
  - intros a b. rewrite process_filter_element_eq.
    cbn [is_filter_term py_len String.length Nat.eqb py_getitem String.get
         py_eq_str String.eqb Ascii.eqb Bool.eqb mbind outcome_bind].
    unfold process_term, translate_term.
    cbn [py_getitem String.get is_range mbind outcome_bind].
    destruct (translate_filter self (VStr (String a "")) (VStr (String b "")))
      as [[key value]|]; reflexivity.
Qed.

Lemma join_not_str l v :
  v ∈ l → (∀ s, v ≠ VStr s) → ∃ e, join l = Raise e ∧ exn_name e = "TypeError".
Proof.
  intros Hin Hv. unfold join. generalize 0%nat.
  induction l as [|x l IH]; intros i; [by apply elem_of_nil in Hin|].
  apply elem_of_cons in Hin as [<- | Hin].
  - destruct v; try (by eexists); by destruct (Hv s).
  - destruct (IH Hin (S i)) as (e & He & Hn).
    destruct x; try (by eexists). cbn [join_from]. rewrite He. by exists e.
Qed.

Lemma default_render_kwargs self key value :
  render_filter_term self = default_render_filter_term →
  render_filter_term_kwargs self key value = OK VNone.
Proof.
  intros H. unfold render_filter_term_kwargs. rewrite H.
  by destruct value as [| | | | [|? [|? [|? ?]]] |].
Qed.

(** With the mixin's [render_filter_term], a rendered tree that has a
    filter term has [None] among its tokens. *)
Lemma default_tokens self elm :
  render_filter_term self = default_render_filter_term →
  ∀ out,
  process_filter_element self elm [] = OK out →
  filter_terms elm ≠ [] →
  VNone ∈ out.
Proof.
  intros Hdef.
  induction elm as [| n | x | s | items IH | items IH] using pyval_nested_ind;
    intros out Hout; rewrite filter_terms_eq;
    rewrite process_filter_element_eq in Hout;
    (destruct (is_filter_term _) as [[|]|] eqn:Hterm; [| |done]);
    cbn [mbind outcome_bind] in Hout;
    try (apply process_term_translated in Hout
           as (fkey & fvalue & key & value & rendered & _ & _ & _ & Hr & ->);
         rewrite (default_render_kwargs _ _ _ Hdef) in Hr; injection Hr as <-;
         intros _; apply elem_of_app; right; apply list_elem_of_here);
    try (destruct (is_operator _); done).
  cbn [is_operator].
  assert (process_filter_element self (VParse items) [] = OK out) as Hgroup.
  { rewrite process_filter_element_eq, Hterm. exact Hout. }
  apply (process_group_inv _ _ _ _ Hterm) in Hgroup as (body & Hbody & ->).
  intros Hterms.
  assert (VNone ∈ body) as Hin.
  { clear Hout Hterm. revert body Hbody Hterms.
    induction IH as [|item rest Hitem _ IHrest]; intros body Hbody Hterms; [done|].
    apply process_items_inv in Hbody as (first & others & Hfirst & Hothers & ->).
    cbn [flat_map] in Hterms. apply elem_of_app.
    destruct (filter_terms item) as [|t ts] eqn:Hft.
    - right. by apply IHrest.
    - left. by apply Hitem. }
  cbn [app]. destruct (is_not_structure (VParse items)); [exact Hin|].
  apply elem_of_cons. right. apply elem_of_app. by left.
Qed.

(** X9. An adapter that keeps the two renderers of the mixin cannot build
    a filter string for a filter that has a term: [build_filter_string]
    raises, either what the rendering raised or the [TypeError] of joining
    a list that holds [None]. *)
Theorem X9_default_renderers_build self filter_input_value parsed root :
  render_filter_term self = default_render_filter_term →
  render_operator_term self = default_render_operator_term →
  parse_filter filter_input_value = OK parsed →
  py_getitem parsed 0 = OK root →
  filter_terms root ≠ [] →
  ∃ e, build_filter_string self filter_input_value = Raise e ∧
       (process_filter_element self root [] = Raise e ∨ exn_name e = "TypeError").
Proof.
  intros Hf Ho Hparse Hroot Hterms. unfold build_filter_string.
  rewrite Hparse. cbn [mbind outcome_bind]. rewrite Hroot. cbn [mbind outcome_bind].
  destruct (process_filter_element self root []) as [out|e] eqn:Hout;
    [|exists e; split; [reflexivity | by left]].
  cbn [mbind outcome_bind].
  pose proof (default_tokens self root Hf out Hout Hterms) as Hin.
  rewrite filter_terms_eq in Hterms. pose proof Hout as Hout'.
  rewrite process_filter_element_eq in Hout'.
  destruct (is_filter_term root) as [[|]|] eqn:Hterm; [| |done];
    cbn [mbind outcome_bind] in Hout'.
  - apply process_term_translated in Hout'
      as (fkey & fvalue & key & value & rendered & _ & _ & _ & Hr & ->).
    rewrite (default_render_kwargs _ _ _ Hf) in Hr. injection Hr as <-.
    eexists. split; [reflexivity | by right].
  - destruct (is_operator root); [done|].
    destruct root as [| | | | |items]; try discriminate Hout'.
    apply (process_group_inv _ _ _ _ Hterm) in Hout as (body & Hbody & ->).
    destruct (is_not_structure (VParse items)) eqn:Hnot; cbn [app] in *.
    + (* a NOT group: the first token is the rendered operator, [None] *)
      destruct items as [|[| | | s | |] rest]; try discriminate Hnot.
      apply process_items_inv in Hbody as (first & others & Hfirst & _ & ->).
      assert (is_operator (VStr s) = true) as Hop.
      { cbn in Hnot. apply String.eqb_eq in Hnot. cbn [is_operator]. rewrite Hnot.
        apply bool_decide_eq_true. do 2 (apply elem_of_cons; right).
        apply list_elem_of_here. }
      rewrite process_filter_element_eq, (is_operator_not_term _ Hop), Hop in Hfirst.
      cbn [mbind outcome_bind] in Hfirst.
      apply process_operator_rendered in Hfirst as (operator & rendered & _ & Hr & ->).
      rewrite Ho in Hr. injection Hr as <-.
      eexists. split; [reflexivity | by right].
    + cbn [list_getitem lookup list_lookup mbind outcome_bind py_eq_str
           String.eqb Ascii.eqb Bool.eqb].
      change (VStr "(" :: body ++ [VStr ")"]) with ([VStr "("] ++ body ++ [VStr ")"]).
      rewrite slice_1_m1_enclosed.
      apply elem_of_cons in Hin as [Hhead|Hin]; [discriminate Hhead|].
      apply elem_of_app in Hin as [Hin|Hin].
      * destruct (join_not_str body VNone Hin) as (e & He & Hn); [done|].
        exists e. split; [exact He | by right].
      * apply elem_of_cons in Hin as [Hlast|Hin]; [discriminate Hlast|].
        by apply elem_of_nil in Hin.
Qed.

End LeavesAndDefaults.

Lemma X9_default_renderers_build_witness :
  ∃ e, build_filter_string (env := sample_env) partial_service "a:1" = Raise e ∧
       (process_filter_element (env := sample_env) partial_service (sample_term "a" "1") []
          = Raise e ∨ exn_name e = "TypeError").
Proof.
  apply (X9_default_renderers_build (env := sample_env) partial_service "a:1"
           (VParse [sample_term "a" "1"]) (sample_term "a" "1")); try reflexivity.
  discriminate.
Defined.

Section MoreResponseTranslation.
Context `{env : environment} {response : Type}.
Implicit Types (self : service (response := response)) (result : gmap string pyval).

(** X10. When the accessor of the list of results raises,
    [format_search_response] raises the same and no warning is added; when
    the accessor of the number of results raises, the results have been
    translated already and the warnings of their fields stay recorded. *)
Theorem X10_accessor_failures self response0 common_search_params format warnings :
  (∀ e, get_results_list_from_response self response0 = Raise e →
     format_search_response self response0 common_search_params format warnings =
       (Raise e, warnings)) ∧
  (∀ raw e,
     get_results_list_from_response self response0 = OK raw →
     (∀ k, get_fields common_search_params ≠ PInt k) →
     get_num_results_from_response self response0 = Raise e →
     format_search_response self response0 common_search_params format warnings =
       (Raise e,
        warnings ++ flat_map (λ result,
          field_warnings self result (requested_fields common_search_params)) raw)).
Proof.
  unfold format_search_response. split.
  - intros e ->. reflexivity.
  - intros raw e -> Hty Hnum.
    destruct (translate_results_spec self (get_fields common_search_params) format raw Hty
                [] warnings) as (trs & -> & _).
    rewrite Hnum. reflexivity.
Qed.

(** X11. The translated object of a result depends on which fields are
    requested, not on their order nor on how often each is listed. *)
Theorem X11_fields_as_a_set self result names names' format warnings warnings' :
  (∀ name, name ∈ names ↔ name ∈ names') →
  (translate_single_result self result (PList names) format warnings).1 =
  (translate_single_result self result (PList names') format warnings').1.
Proof.
  intros Hsame.
  destruct (translate_single_result_spec self result (PList names) format warnings)
    as (tr & -> & Hl); [discriminate|].
  destruct (translate_single_result_spec self result (PList names') format warnings')
    as (tr' & -> & Hl'); [discriminate|].
  cbn [fst]. f_equal. apply map_eq. intros name. rewrite Hl, Hl'.
  by rewrite (bool_decide_ext _ _ (Hsame name)).
Qed.

(** X12. With the [process_s_query_parameter] of the mixin no sorting
    criterion is supported, whatever the sort options are. *)
Theorem X12_no_sorting self :
  process_s_query_parameter self = default_process_s_query_parameter →
  get_supported_sorting_criteria self = OK [].
Proof.
  intros Hdef. unfold get_supported_sorting_criteria.
  destruct SORT_OPTIONS as [|option rest]; [reflexivity|].
  cbn [sorting_criteria_loop]. unfold probe at 1. rewrite Hdef. reflexivity.
Qed.

Lemma run_probes_sublist self ps :
  ∀ supported_criteria l,
  run_probes self ps supported_criteria = OK l →
  l = [] ∨ ∃ l', l = supported_criteria ++ l' ∧ sublist l' (criterion <$> ps).
Proof.
  induction ps as [|p rest IH]; intros acc l.
  - intros [= <-]. right. exists []. by rewrite app_nil_r.
  - cbn [run_probes]. unfold probe.
    destruct (process_s_query_parameter self p.1 p.2 true) as [?|e].
    + intros Hl. destruct (IH _ _ Hl) as [-> | (l' & -> & Hsub)]; [by left|].
      right. exists (criterion p :: l'). split; [by rewrite <- app_assoc|].
      by apply sublist_skip.
    + destruct (isinstance e "ACException").
      * intros Hl. destruct (IH _ _ Hl) as [-> | (l' & -> & Hsub)]; [by left|].
        right. exists l'. split; [reflexivity | by apply sublist_cons].
      * destruct (isinstance e "NotImplementedError"); [|discriminate].
        intros [= <-]. by left.
Qed.

Lemma length_probes (options : list string) :
  length (probes options) = (2 * length options)%nat.
Proof.
  induction options as [|o rest IH]; [reflexivity|].
  cbn [probes flat_map app length]. fold (probes rest). rewrite IH. lia.
Qed.

(** X13. A list [get_supported_sorting_criteria] returns is taken, in
    order, from the sequence [-o1; o1; -o2; o2; ...] of the sort options: it
    has nothing else and at most two entries for each option. *)
Theorem X13_criteria_from_options self l :
  get_supported_sorting_criteria self = OK l →
  sublist l (criterion <$> probes SORT_OPTIONS) ∧
  (length l ≤ 2 * length SORT_OPTIONS)%nat.
Proof.
  unfold get_supported_sorting_criteria. rewrite sorting_criteria_loop_probes.
  intros Hl.
  assert (sublist l (criterion <$> probes SORT_OPTIONS)) as Hsub.
  { destruct (run_probes_sublist _ _ _ _ Hl) as [-> | (l' & -> & Hsub)];
      [apply sublist_nil_l | exact Hsub]. }
  split; [exact Hsub|].
  apply sublist_length in Hsub. by rewrite length_fmap, length_probes in Hsub.
Qed.

Lemma run_probes_failure self before p after e :
  Forall (quiet self) before →
  process_s_query_parameter self p.1 p.2 true = Raise e →
  isinstance e "ACException" = false →
  isinstance e "NotImplementedError" = false →
  ∀ supported_criteria,
  run_probes self (before ++ p :: after) supported_criteria = Raise e.
Proof.
  intros Hb He Hac Hni. induction Hb as [|q rest Hq _ IH]; intros acc.
  - cbn [app run_probes]. unfold probe. rewrite He, Hac, Hni. reflexivity.
  - cbn [app run_probes]. unfold probe. unfold quiet in Hq.
    destruct (process_s_query_parameter self q.1 q.2 true) as [?|e'].
    + apply IH.
    + rewrite Hq. apply IH.
Qed.

(** X14. An exception of a probe that is neither [ACException] nor
    [NotImplementedError] is not caught: when the probes before it returned
    or raised [ACException], [get_supported_sorting_criteria] raises it and
    returns no list. *)
Theorem X14_probe_failure self before p after e :
  probes SORT_OPTIONS = before ++ p :: after →
  Forall (quiet self) before →
  process_s_query_parameter self p.1 p.2 true = Raise e →
  isinstance e "ACException" = false →
  isinstance e "NotImplementedError" = false →
  get_supported_sorting_criteria self = Raise e.
Proof.
  intros Hps Hb He Hac Hni.
  unfold get_supported_sorting_criteria. rewrite sorting_criteria_loop_probes, Hps.
  by apply run_probes_failure.
Qed.

End MoreResponseTranslation.

Lemma X10_accessor_failures_witness :
  format_search_response (env := sample_env) crashing_service sample_response
    {[ "fields" := PList ["id"; "name"] ]} VNone [] =
    (Raise (NotImplementedError
       "Service must implement method BaseACServiceSearchMixin.get_results_list_from_response"),
     [ "Can't return unsupported field name";
       "Can't return unsupported field id";
       "Can't return unsupported field name" ]).
Proof.
  refine (eq_trans (proj2 (X10_accessor_failures (env := sample_env) crashing_service
            sample_response {[ "fields" := PList ["id"; "name"] ]} VNone [])
            sample_response _ eq_refl _ eq_refl) _).
  - intros k. vm_compute. discriminate.
  - vm_compute. reflexivity.
Defined.

Lemma X11_fields_as_a_set_witness :
  (translate_single_result (env := sample_env) sample_service
     {[ "identifier" := VInt 7; "title" := VStr "t" ]}
     (PList ["id"; "name"; "id"]) VNone []).1 =
  (translate_single_result (env := sample_env) sample_service
     {[ "identifier" := VInt 7; "title" := VStr "t" ]}
     (PList ["name"; "id"]) VNone []).1.
Proof.
  apply (X11_fields_as_a_set (env := sample_env) sample_service).
  intros name. rewrite !elem_of_cons, !elem_of_nil. tauto.
Defined.

Lemma X12_no_sorting_witness :
  get_supported_sorting_criteria (env := sample_env) base_service = OK [].
Proof. exact (X12_no_sorting (env := sample_env) base_service eq_refl). Defined.

Lemma X13_criteria_from_options_witness :
  sublist ["-relevance"; "relevance"; "-duration"]
    ["-relevance"; "relevance"; "-popularity"; "popularity"; "-duration"; "duration"] ∧
  (3 ≤ 2 * 3)%nat.
Proof.
  exact (X13_criteria_from_options (env := sample_env) sample_service
           ["-relevance"; "relevance"; "-duration"] eq_refl).
Defined.

Lemma X14_probe_failure_witness :
  get_supported_sorting_criteria (env := sample_env) crashing_service =
    Raise (KeyError "'popularity'").
Proof.
  apply (X14_probe_failure (env := sample_env) crashing_service
           [("relevance", true); ("relevance", false)] ("popularity", true)
           [("popularity", false); ("duration", true); ("duration", false)]);
    try reflexivity.
  repeat constructor.
Defined.

Section TextSearch.
Context `{env : environment} `{cst : constants} {response : Type}.
Implicit Types (self : search_adapter (response := response)).
Implicit Types (query_params params extra : gmap string pyval).

(** X15. [translate_field_id] puts the prefix of the service before the
    identifier of the result, written as [format] writes it: a string as
    itself, any other value through [str].  Two results get the same
    translation only when their identifiers are written alike, so for
    identifiers that are strings the translation is one to one.  A result
    without the identifier field makes it raise [KeyError], and
    [translate_field], where the method is registered for a field, turns
    that into its own exception. *)
Theorem X15_translate_field_id self :
  (∀ result v,
     result !! SERVICE_ID_FIELDNAME self = Some v →
     translate_field_id self result =
       OK (VStr (name self +:+ ACID_SEPARATOR_CHAR +:+ format0 v))) ∧
  (∀ result result' v v',
     result !! SERVICE_ID_FIELDNAME self = Some v →
     result' !! SERVICE_ID_FIELDNAME self = Some v' →
     translate_field_id self result = translate_field_id self result' →
     format0 v = format0 v') ∧
  (∀ result result' i j,
     result !! SERVICE_ID_FIELDNAME self = Some (VStr i) →
     result' !! SERVICE_ID_FIELDNAME self = Some (VStr j) →
     translate_field_id self result = translate_field_id self result' →
     i = j) ∧
  (∀ result,
     result !! SERVICE_ID_FIELDNAME self = None →
     translate_field_id self result =
       Raise (KeyError (py_repr (VStr (SERVICE_ID_FIELDNAME self))))) ∧
  (∀ (service0 : service (response := response)) registry ac_field_name result,
     direct_fields_mapping service0 !! ac_field_name = None →
     translate_field_methods_registry service0 = Some registry →
     registry !! ac_field_name = Some (translate_field_id self) →
     result !! SERVICE_ID_FIELDNAME self = None →
     translate_field service0 ac_field_name result =
       Raise (ACFieldTranslateException
         ("Can't translate field '" +:+ ac_field_name +:+ "' (KeyError: "
            +:+ py_repr (VStr (SERVICE_ID_FIELDNAME self)) +:+ ")"))).
Proof.
  assert (∀ result v,
     result !! SERVICE_ID_FIELDNAME self = Some v →
     translate_field_id self result = OK (VStr (id_prefix self +:+ format0 v))) as Hid.
  { intros result v Hv. unfold translate_field_id, dict_getitem. by rewrite Hv. }
  assert (∀ result result' v v',
     result !! SERVICE_ID_FIELDNAME self = Some v →
     result' !! SERVICE_ID_FIELDNAME self = Some v' →
     translate_field_id self result = translate_field_id self result' →
     format0 v = format0 v') as Hinj.
  { intros result result' v v' Hv Hv'. rewrite (Hid _ _ Hv), (Hid _ _ Hv').
    intros [= Heq]. by apply (inj (String.app (id_prefix self))) in Heq. }
  split; [|split; [exact Hinj|split; [|split]]].
  - intros result v Hv. rewrite (Hid _ _ Hv). unfold id_prefix.
    by rewrite append_assoc.
  - intros result result' i j Hi Hj Heq. exact (Hinj _ _ _ _ Hi Hj Heq).
  - intros result Hmiss. unfold translate_field_id, dict_getitem. by rewrite Hmiss.
  - intros service0 registry ac_field_name result Hd Hr Hm Hmiss.
    unfold translate_field. rewrite Hd, Hr, Hm.
    unfold translate_field_id, dict_getitem. rewrite Hmiss. reflexivity.
Qed.

(** X16. [process_common_search_params] needs the size and the page entry:
    without the size entry it raises [KeyError] before any method is
    called.  When both are [None] it returns no parameter and calls
    nothing; when both methods return, a parameter they both set has the
    value the page method gave it. *)
Theorem X16_common_search_params self common_search_params warnings :
  (common_search_params !! QUERY_PARAM_SIZE = None →
     process_common_search_params self common_search_params warnings =
       (Raise (KeyError (py_repr (VStr QUERY_PARAM_SIZE))), warnings)) ∧
  (common_search_params !! QUERY_PARAM_SIZE = Some PNone →
   common_search_params !! QUERY_PARAM_PAGE = Some PNone →
     process_common_search_params self common_search_params warnings = (OK ∅, warnings)) ∧
  (∀ size page size_params page_params warnings1 warnings2,
     common_search_params !! QUERY_PARAM_SIZE = Some size → size ≠ PNone →
     common_search_params !! QUERY_PARAM_PAGE = Some page → page ≠ PNone →
     process_size_query_parameter self size common_search_params warnings =
       (OK size_params, warnings1) →
     process_page_query_parameter self page common_search_params warnings1 =
       (OK page_params, warnings2) →
     ∃ params,
       process_common_search_params self common_search_params warnings =
         (OK params, warnings2) ∧
       ∀ k, params !! k =
         match page_params !! k with
         | Some v => Some v
         | None => size_params !! k
         end).
Proof.
  unfold process_common_search_params, and_then, lift, pure, dict_getitem.
  split; [|split].
  - intros ->. reflexivity.
  - intros -> ->. reflexivity.
  - intros size page size_params page_params warnings1 warnings2 -> Hsize -> Hpage Hs Hp.
    exists (page_params ∪ (size_params ∪ ∅)). split.
    + destruct size; [done | |]; destruct page; try done;
        unfold update_or_warn; rewrite Hs, Hp; reflexivity.
    + intros k. rewrite !lookup_union, lookup_empty.
      destruct (page_params !! k), (size_params !! k); reflexivity.
Qed.

(** The extra parameters fill the free names only. *)
Lemma add_extra_lookup extra query_params k :
  add_extra extra query_params !! k =
    match query_params !! k with
    | Some v => Some v
    | None => extra !! k
    end.
Proof.
  unfold add_extra. rewrite lookup_union.
  destruct (query_params !! k) as [v|] eqn:Hq.
  - rewrite map_lookup_filter_None_2; [reflexivity|].
    right. intros x _. cbn. congruence.
  - rewrite right_id by apply _.
    destruct (extra !! k) as [x|] eqn:Hx.
    + by apply map_lookup_filter_Some_2.
    + apply map_lookup_filter_None_2. by left.
Qed.

(** X17. The parameters [text_search] sends, when every step returns: a
    parameter of the common parameters (size, page) replaces one of the
    same name from the query, the filter or the sort criterion, and an
    extra parameter is added only under a name none of them uses. *)
Theorem X17_parameter_precedence self q f s common_search_params
    warnings0 warnings1 warnings2 warnings3 warnings4 warnings5
    params1 params2 params3 common extra :
  process_q self q ∅ warnings0 = (OK params1, warnings1) →
  process_f self f params1 warnings1 = (OK params2, warnings2) →
  process_s self s params2 warnings2 = (OK params3, warnings3) →
  process_common_search_params self common_search_params warnings3 = (OK common, warnings4) →
  add_extra_search_query_params self warnings4 = (OK extra, warnings5) →
  ∃ params,
    text_search_query_params self q f s common_search_params warnings0 =
      (OK params, warnings5) ∧
    ∀ k, params !! k =
      match common !! k with
      | Some v => Some v
      | None =>
          match params3 !! k with
          | Some v => Some v
          | None => extra !! k
          end
      end.
Proof.
  intros Hq Hf Hs Hc He.
  exists (add_extra extra (common ∪ params3)). split.
  - unfold text_search_query_params, and_then, pure.
    rewrite Hq, Hf, Hs, Hc, He. reflexivity.
  - intros k. rewrite add_extra_lookup, lookup_union.
    destruct (common !! k), (params3 !! k); reflexivity.
Qed.

(** X18. An adapter that keeps the mixin's methods for the query, the
    filter, the sort criterion, the size and the page still searches: each
    of the five that is asked for adds the warning of its parameter, in
    this order, and the extra parameters are all that is sent. *)
Theorem X18_unsupported_parameters self q f s size page common_search_params
    warnings warnings' extra :
  process_q_query_parameter self = default_process_q_query_parameter →
  process_f_query_parameter self = default_process_f_query_parameter →
  process_s_query_parameter_in_search self = default_process_s_query_parameter_in_search →
  process_size_query_parameter self = default_process_size_query_parameter →
  process_page_query_parameter self = default_process_page_query_parameter →
  f ≠ VNone →
  common_search_params !! QUERY_PARAM_SIZE = Some size → size ≠ PNone →
  common_search_params !! QUERY_PARAM_PAGE = Some page → page ≠ PNone →
  add_extra_search_query_params self
    (warnings ++ [ "Parameter '" +:+ QUERY_PARAM_QUERY +:+ "' not supported";
                   "Parameter '" +:+ QUERY_PARAM_FILTER +:+ "' not supported";
                   "Parameter '" +:+ QUERY_PARAM_SORT +:+ "' not supported";
                   "Parameter '" +:+ QUERY_PARAM_SIZE +:+ "' not supported";
                   "Parameter '" +:+ QUERY_PARAM_PAGE +:+ "' not supported" ])
    = (OK extra, warnings') →
  text_search_query_params self q f (VStr s) common_search_params warnings =
    (OK extra, warnings').
Proof.
  intros Hq Hf Hs Hsize Hpage Hfn Hcs Hsn Hcp Hpn He.
  assert (add_extra extra (∅ ∪ ∅) = extra) as Hextra.
  { apply map_eq. intros k. by rewrite add_extra_lookup, lookup_union, !lookup_empty. }
  unfold text_search_query_params, and_then, pure, process_q, process_f, process_s,
    process_common_search_params, and_then, lift, pure, dict_getitem, update_or_warn.
  rewrite Hq, Hf, Hs, Hsize, Hpage, Hcs, Hcp.
  unfold default_process_q_query_parameter, default_process_f_query_parameter,
    default_process_s_query_parameter_in_search, default_process_s_query_parameter,
    default_process_size_query_parameter, default_process_page_query_parameter,
    lift, add_response_warning.
  cbn [isinstance not_supported NotImplementedError exn_name exn_bases exn_str
       String.eqb Ascii.eqb Bool.eqb existsb orb].
  destruct f; try done;
    (destruct (startswith_dash s);
     (destruct size; [done | |]; destruct page; try done;
      cbn [isinstance not_supported NotImplementedError exn_name exn_bases exn_str
           String.eqb Ascii.eqb Bool.eqb existsb orb];
      rewrite <- !app_assoc; cbn [app]; rewrite He, Hextra; reflexivity)).
Qed.

(** How [text_search] reads the sort criterion: [None] is skipped; a
    string that starts with "-" asks for descending order of what follows
    the first character, any other string for ascending order of itself;
    a value of another type raises [AttributeError], which is not caught. *)
Lemma process_s_cases self query_params :
  process_s self VNone query_params = pure query_params ∧
  (∀ s, process_s self (VStr ("-" +:+ s)) query_params =
     update_or_warn (process_s_query_parameter_in_search self s true) query_params) ∧
  (∀ s, startswith_dash s = false →
     process_s self (VStr s) query_params =
     update_or_warn (process_s_query_parameter_in_search self s false) query_params) ∧
  (∀ s warnings, s ≠ VNone → (∀ t, s ≠ VStr t) →
     ∃ e, process_s self s query_params warnings = (Raise e, warnings) ∧
          exn_name e = "AttributeError").
Proof.
  split; [reflexivity|]. split; [|split].
  - intros s. unfold process_s, startswith_dash. cbn.
    by destruct s.
  - intros s Hs. unfold process_s. by rewrite Hs.
  - intros s warnings Hn Hs. destruct s; try done; try (by eexists). by destruct (Hs s).
Qed.

(** X19. An exception other than [NotImplementedError] from the method of
    the query, the filter or the sort criterion ends [text_search] with
    that exception; the request is not sent. *)
Theorem X19_search_aborts self context q f s common_search_params warnings warnings' e :
  isinstance e "NotImplementedError" = false →
  (process_q_query_parameter self q warnings = (Raise e, warnings') →
   text_search self context q f s common_search_params warnings = (Raise e, warnings')) ∧
  (∀ params1 warnings1,
     process_q self q ∅ warnings = (OK params1, warnings1) →
     f ≠ VNone →
     process_f_query_parameter self f warnings1 = (Raise e, warnings') →
     text_search self context q f s common_search_params warnings = (Raise e, warnings')).
Proof.
  intros Hni. split.
  - intros Hq.
    unfold text_search, text_search_query_params, and_then, process_q, update_or_warn.
    by rewrite Hq, Hni.
  - intros params1 warnings1 Hq Hfn Hf.
    unfold text_search, text_search_query_params, and_then.
    rewrite Hq. unfold process_f, update_or_warn.
    destruct f; try done; by rewrite Hf, Hni.
Qed.

(** X20. The end of [text_search]: with the parameters computed and the
    request answered, the answer is what [format_search_response] makes
    of the response under the format of the context; a context without a
    format raises [KeyError], after the request has been sent. *)
Theorem X20_search_response self context q f s common_search_params
    warnings warnings1 warnings2 params response0 :
  text_search_query_params self q f s common_search_params warnings =
    (OK params, warnings1) →
  send_request self (TEXT_SEARCH_ENDPOINT_URL self) params warnings1 =
    (OK response0, warnings2) →
  text_search self context q f s common_search_params warnings =
    match context !! "format" with
    | Some format =>
        format_search_response (mixin self) response0 common_search_params format warnings2
    | None => (Raise (KeyError (py_repr (VStr "format"))), warnings2)
    end.
Proof.
  intros Hp Hr. unfold text_search, and_then, lift, dict_getitem. rewrite Hp, Hr.
  by destruct (context !! "format").
Qed.

End TextSearch.

Lemma X17_parameter_precedence_witness :
  ∃ params,
    text_search_query_params (env := sample_env) (cst := sample_constants) sample_adapter
      (VStr "dogs") (VStr "a:1") (VStr "-duration")
      {[ "size" := PInt 15; "page" := PInt 2 ]} [] =
      (OK params, ["Parameter 'f' not supported"]) ∧
    params !! "query" = Some (VStr "dogs") ∧
    params !! "rows" = Some (VInt 10) ∧
    params !! "order" = Some (VStr "desc") ∧
    params !! "wskey" = Some (VStr "k").
Proof.
  destruct (X17_parameter_precedence (env := sample_env) (cst := sample_constants)
              sample_adapter (VStr "dogs") (VStr "a:1") (VStr "-duration")
              {[ "size" := PInt 15; "page" := PInt 2 ]}
              [] [] ["Parameter 'f' not supported"] ["Parameter 'f' not supported"]
              ["Parameter 'f' not supported"] ["Parameter 'f' not supported"]
              {[ "query" := VStr "dogs" ]} {[ "query" := VStr "dogs" ]}
              {[ "query" := VStr "dogs"; "sort" := VStr "duration"; "order" := VStr "desc" ]}
              {[ "start" := VInt 2; "rows" := VInt 10 ]}
              {[ "query" := VStr "*"; "wskey" := VStr "k" ]})
    as (params & Heq & Hl); try (vm_compute; reflexivity).
  exists params. split; [exact Heq|].
  rewrite !Hl. repeat split; vm_compute; reflexivity.
Defined.

Lemma X18_unsupported_parameters_witness :
  text_search_query_params (env := sample_env) (cst := sample_constants) default_adapter
    (VStr "dogs") (VStr "a:1") (VStr "-duration")
    {[ "size" := PInt 15; "page" := PInt 2 ]} [] =
    (OK ∅, [ "Parameter 'q' not supported"; "Parameter 'f' not supported";
             "Parameter 's' not supported"; "Parameter 'size' not supported";
             "Parameter 'page' not supported" ]).
Proof.
  apply (X18_unsupported_parameters (env := sample_env) (cst := sample_constants)
           default_adapter (VStr "dogs") (VStr "a:1") "-duration" (PInt 15) (PInt 2));
    try reflexivity; discriminate.
Defined.

Lemma X19_search_aborts_witness :
  text_search (env := sample_env) (cst := sample_constants) failing_adapter
    {[ "format" := VStr "json" ]} (VStr "") VNone VNone
    {[ "size" := PInt 15; "page" := PInt 2 ]} [] =
    (Raise (Exn "ValueError" [] "empty query"), []).
Proof.
  apply (proj1 (X19_search_aborts (env := sample_env) (cst := sample_constants)
                  failing_adapter {[ "format" := VStr "json" ]} (VStr "") VNone VNone
                  {[ "size" := PInt 15; "page" := PInt 2 ]} [] []
                  (Exn "ValueError" [] "empty query") eq_refl)).
  reflexivity.
Defined.

Lemma X20_search_response_witness :
  text_search (env := sample_env) (cst := sample_constants) sample_adapter
    {[ "format" := VStr "json" ]} (VStr "dogs") VNone (VStr "-duration")
    {[ "size" := PInt 15; "page" := PInt 2; "fields" := PList ["id"] ]} [] =
    (OK {| num_results := 2;
           results_list := [ {[ "id" := VInt 7 ]}; ∅ ] |},
     ["Can't return unsupported field id"]) ∧
  text_search (env := sample_env) (cst := sample_constants) sample_adapter
    ∅ (VStr "dogs") VNone (VStr "-duration")
    {[ "size" := PInt 15; "page" := PInt 2; "fields" := PList ["id"] ]} [] =
    (Raise (KeyError "'format'"), []).
Proof.
  split.
  - refine (eq_trans (X20_search_response (env := sample_env) (cst := sample_constants)
              sample_adapter {[ "format" := VStr "json" ]} (VStr "dogs") VNone
              (VStr "-duration")
              {[ "size" := PInt 15; "page" := PInt 2; "fields" := PList ["id"] ]}
              [] [] []
              {[ "query" := VStr "dogs"; "sort" := VStr "duration"; "order" := VStr "desc";
                 "start" := VInt 2; "rows" := VInt 10; "wskey" := VStr "k" ]}
              sample_response _ _) _); vm_compute; reflexivity.
  - refine (eq_trans (X20_search_response (env := sample_env) (cst := sample_constants)
              sample_adapter ∅ (VStr "dogs") VNone (VStr "-duration")
              {[ "size" := PInt 15; "page" := PInt 2; "fields" := PList ["id"] ]}
              [] [] []
              {[ "query" := VStr "dogs"; "sort" := VStr "duration"; "order" := VStr "desc";
                 "start" := VInt 2; "rows" := VInt 10; "wskey" := VStr "k" ]}
              sample_response _ _) _); vm_compute; reflexivity.
Defined.

Section OutermostParentheses.
Context `{env : environment} {response : Type}.
Implicit Types (self : service (response := response)) (elm root : pyval).








End OutermostParentheses.

Lemma X15_translate_field_id_witness :
  translate_field_id (env := decimal_env) (cst := sample_constants) sample_adapter
    {[ "id" := VInt 7 ]} = OK (VStr "Sample:7") ∧
  translate_field_id (env := decimal_env) (cst := sample_constants) sample_adapter
    {[ "id" := VStr "42" ]} = OK (VStr "Sample:42") ∧
  translate_field_id (env := decimal_env) (cst := sample_constants) sample_adapter
    {[ "title" := VStr "t" ]} = Raise (KeyError "'id'").
Proof.
  destruct (X15_translate_field_id (env := decimal_env) (cst := sample_constants)
              sample_adapter) as (Hid & _ & _ & Hmiss & _).
  split; [|split].
  - exact (Hid {[ "id" := VInt 7 ]} (VInt 7) eq_refl).
  - exact (Hid {[ "id" := VStr "42" ]} (VStr "42") eq_refl).
  - exact (Hmiss {[ "title" := VStr "t" ]} eq_refl).
Defined.




Section FilterErrors.
Context `{env : environment} `{cst : constants} {response : Type}.
Implicit Types (self : service (response := response)) (elm : pyval).



End FilterErrors.

